(** * fabric8-analytics-lsp-server: [src/server.ts]

    A shallow embedding of the language-server core: the event router
    ([AnalysisFiles]), the fan-in [Aggregator], the stack-analysis
    submission and poll loop ([get_stack_metadata], [stack_collector]), the
    per-dependency metadata fetch ([get_metadata]) and the handler registered
    for [package.json] manifests.

    Conventions.
    - The program is single threaded and callback driven.  Every callback of
      the source is a state transformer here; the requests handed to the HTTP
      client and the timers armed with [setTimeout] are recorded in the state,
      and the event loop delivering a response or firing a timer is an
      application of the corresponding callback.
    - A JavaScript [Map], or an object used as one, is a [gmap].  The two
      tables keyed by document URI are read and written as plain objects
      ([uri in table], [table[uri] = v]); a document URI is never the name of
      a property that such an object inherits.
    - Functions of the Node runtime and of modules that are not part of
      [server.ts] ([JSON.parse], [RegExp], [url.parse], [path.basename], the
      diagnostics engines) are section variables. *)

From stdpp Require Import gmap strings list fin_maps.
From Stdlib Require Import ZArith Ascii.

Local Open Scope string_scope.

(** ** JavaScript values that cross the HTTP boundary *)

(** The values [JSON.parse] can return.  A number is kept as the text that
    [ToString] gives for it; an object as its own properties. *)
#[warnings="-register-all"]
Inductive Json : Type :=
  | JNull
  | JBool (b : bool)
  | JNum (repr : string)
  | JStr (s : string)
  | JArr (items : list Json)
  | JObj (props : list (string * Json)).

(** A value read from a property or passed around untyped: [None] is
    [undefined]. *)
Definition JsValue : Type := option Json.

(** [Array.prototype.join(",")] over strings already converted. *)
Fixpoint join_comma (parts : list string) : string :=
  match parts with
  | [] => ""
  | [p] => p
  | p :: rest => p ++ "," ++ join_comma rest
  end.

(** First binding of [k] in a property list. *)
Fixpoint assoc (k : string) (props : list (string * Json)) : JsValue :=
  match props with
  | [] => None
  | (k', v) :: rest => if String.eqb k' k then Some v else assoc k rest
  end.

(** [ToString] on a JSON value; [None] when it throws a TypeError.  An array
    joins its elements with commas, [null] elements giving the empty string,
    and throws when an element does.  A plain object is converted by the
    [toString] it finds: the inherited one gives ["[object Object]"]; an own
    property of that name, which in a parsed value is never a function,
    shadows it, and as [valueOf] never yields a primitive either, the
    conversion throws. *)
Fixpoint to_string (v : Json) : option string :=
  match v with
  | JNull => Some "null"
  | JBool true => Some "true"
  | JBool false => Some "false"
  | JNum repr => Some repr
  | JStr s => Some s
  | JArr items =>
      option_map join_comma
        ((fix elems (l : list Json) : option (list string) :=
            match l with
            | [] => Some []
            | JNull :: l' => option_map (cons "") (elems l')
            | x :: l' =>
                match to_string x with
                | Some text => option_map (cons text) (elems l')
                | None => None
                end
            end) items)
  | JObj props =>
      match assoc "toString" props with
      | Some _ => None
      | None => Some "[object Object]"
      end
  end.

(** Interpolation [`${v}`] of a possibly undefined value; [None] when the
    conversion throws. *)
Definition template (v : JsValue) : option string :=
  match v with
  | None => Some "undefined"
  | Some j => to_string j
  end.

(** [v == s] for a string [s] that is not the text of a number (the source
    only compares with ['success']); [None] when the comparison throws.  A
    string compares by value; an array or an object is first converted to a
    primitive, which gives what [ToString] gives and throws when it does;
    [undefined], [null], booleans and numbers are never equal to such a
    string. *)
Definition loose_eq_word (v : JsValue) (s : string) : option bool :=
  match v with
  | Some (JStr s') => Some (String.eqb s' s)
  | Some (JArr items) =>
      option_map (λ text, String.eqb text s) (to_string (JArr items))
  | Some (JObj props) =>
      option_map (λ text, String.eqb text s) (to_string (JObj props))
  | _ => Some false
  end.

(** Property read [v.k] for the names the source reads ([error], [status],
    [id]), none of which is inherited or built in: on [null] the read throws
    a TypeError (outer [None]); on a string, number, boolean or array it is
    [undefined]. *)
Definition get_prop (v : Json) (k : string) : option JsValue :=
  match v with
  | JNull => None
  | JObj props => Some (assoc k props)
  | _ => Some None
  end.

(** How a callback ends: it returns, or an exception escapes it.  Either way
    the state it leaves behind is kept. *)
Inductive Completion (W : Type) : Type :=
  | Returned (w : W)
  | Threw (error : string) (w : W).
Arguments Returned {W} w.
Arguments Threw {W} error w.

Definition state_of {W} (c : Completion W) : W :=
  match c with
  | Returned w => w
  | Threw _ w => w
  end.

(** ** [enum EventStream] *)

Inductive EventStream : Type :=
  | Invalid
  | Diagnostics
  | CodeLens.

#[global] Instance EventStream_eq_dec : EqDecision EventStream.
Proof. solve_decision. Defined.

(** ** [IDependency]

    The collector's dependency objects.  The [Aggregator] keys its [Map] by
    the object itself, that is by reference: [ref] is the identity of the
    object, and the two fields are what [dependency.name.value] and
    [dependency.version.value] read. *)
Record IDependency : Type := {
  ref : positive;
  name : string;
  version : string
}.

#[global] Instance IDependency_eq_dec : EqDecision IDependency.
Proof. solve_decision. Defined.

#[global] Instance IDependency_countable : Countable IDependency.
Proof.
  apply (inj_countable'
           (λ d, (ref d, name d, version d))
           (λ t, {| ref := t.1.1; name := t.1.2; version := t.2 |})).
  by intros [].
Defined.

(** ** [class Aggregator] *)

Module Aggregator.
Section Aggregator.
(** [W] is the state the completion callback acts on. *)
Context {W : Type}.

Record t : Type := {
  mapping : gmap IDependency bool;
  callback : W → W
}.

(** [constructor(items, callback)]: every item is entered with [false].
    The callback is stored, not called. *)
Definition new (items : list IDependency) (cb : W → W) : t :=
  {| mapping := foldl (λ m item, <[item := false]> m) ∅ items;
     callback := cb |}.

(** [is_ready()]: the conjunction of all the flags.  A [Map] iterates in
    insertion order; the conjunction does not depend on the order. *)
Definition is_ready (a : t) : bool :=
  map_fold (λ (_ : IDependency) (m1 : bool) (val : bool), val && m1)
           true (mapping a).

(** [aggregate(dep)]: set the flag of [dep], entering [dep] if it is not a
    key yet, then call the callback if the aggregator is ready. *)
Definition aggregate (dep : IDependency) (a : t) (w : W) : t * W :=
  let a' := {| mapping := <[dep := true]> (mapping a);
               callback := callback a |} in
  if is_ready a' then (a', callback a' w) else (a', w).

(** A sequence of [aggregate] calls, in the order the responses arrive. *)
Definition aggregate_all (deps : list IDependency) (s : t * W) : t * W :=
  foldl (λ s dep, aggregate dep s.1 s.2) s deps.
End Aggregator.
Arguments t : clear implicits.
End Aggregator.

(** The number of times the callback is called: the aggregator is built over
    [items] with a callback that counts its own calls, and [calls] are the
    keys passed to [aggregate], in order. *)
Definition invocations (items calls : list IDependency) : nat :=
  (Aggregator.aggregate_all calls (Aggregator.new items S, 0%nat)).2.

(** ** [class AnalysisFileHandler], [class AnalysisFiles] *)

Module AnalysisFiles.
Section AnalysisFiles.
(** [RegExp] objects: the constructor and [RegExp.prototype.test].  The
    patterns are compiled without flags, so [test] keeps no position
    between calls. *)
Context {RegExp : Type}.
Variable RegExp_new : string → RegExp.
Variable RegExp_test : RegExp → string → bool.

(** [W] is the state handlers act on, [R] what a handler returns. *)
Context {W R : Type}.

(** [interface IFileHandlerCallback]: [(uri, name, contents)].  The
    contents come from [file_data] and may be [undefined]. *)
Definition IFileHandlerCallback : Type :=
  string → string → option string → W → R * W.

Record AnalysisFileHandler : Type := {
  matcher : RegExp;
  stream : EventStream;
  callback : IFileHandlerCallback
}.

Record t : Type := {
  handlers : list AnalysisFileHandler;
  file_data : gmap string string
}.

Definition new : t := {| handlers := []; file_data := ∅ |}.

(** [on(stream, matcher, cb)]: push a new handler at the end. *)
Definition on (stream : EventStream) (matcher : string)
    (cb : IFileHandlerCallback) (files : t) : t :=
  {| handlers :=
       handlers files ++
       [ {| matcher := RegExp_new matcher; stream := stream; callback := cb |} ];
     file_data := file_data files |}.

(** The loop of [run] over the handlers still to be visited: the first
    handler of the wanted stream whose pattern matches [file] is called and
    its result returned; falling off the end returns [undefined]. *)
Fixpoint run_loop (hs : list AnalysisFileHandler) (stream0 : EventStream)
    (uri file : string) (contents : option string) (w : W) : option R * W :=
  match hs with
  | [] => (None, w)
  | handler :: rest =>
      if bool_decide (stream handler = stream0)
         && RegExp_test (matcher handler) file
      then let (r, w') := callback handler uri file contents w in (Some r, w')
      else run_loop rest stream0 uri file contents w
  end.

Definition run (files : t) (stream0 : EventStream) (uri file : string)
    (contents : option string) (w : W) : option R * W :=
  run_loop (handlers files) stream0 uri file contents w.

(** [this.files.file_data[uri] = contents]; storing [undefined] leaves a
    property that reads as [undefined], like an absent one. *)
Definition set_file_data (uri : string) (contents : option string)
    (files : t) : t :=
  {| handlers := handlers files;
     file_data := match contents with
                  | Some text => <[uri := text]> (file_data files)
                  | None => delete uri (file_data files)
                  end |}.

(** A call [on(stream, matcher, cb)], as data. *)
Record Registration : Type := {
  reg_stream : EventStream;
  reg_matcher : string;
  reg_callback : IFileHandlerCallback
}.

(** The router after the calls of [on] listed in [regs] have been made, in
    that order, on a new router. *)
Definition registered (regs : list Registration) : t :=
  foldl (λ files reg,
           on (reg_stream reg) (reg_matcher reg) (reg_callback reg) files)
        new regs.
End AnalysisFiles.
Arguments t : clear implicits.
Arguments AnalysisFileHandler : clear implicits.
Arguments IFileHandlerCallback : clear implicits.
Arguments Registration : clear implicits.
End AnalysisFiles.

(** ** [class AnalysisConfig] *)

Record AnalysisConfig : Type := {
  server_url : string;
  forbidden_licenses : list string;
  no_crypto : bool;
  home_dir : string
}.

(** ** State of the stack-analysis correlator *)

(** The second argument of [get_stack_metadata]; the handler passes
    [{manifest: contents}], so [origin] is [undefined] there. *)
Record StackContext : Type := {
  manifest : option string;
  origin : option string
}.

(** The [form_data] object posted by [get_stack_metadata]. *)
Record FormData : Type := {
  form_manifest : option string;
  form_filename : string;
  form_contentType : string;
  form_origin : string
}.

(** A call handed to the [request] module, with what its callback closes
    over: [Post] is the [request.post] of [get_stack_metadata], [Get] the
    [request.get] of [stack_collector]. *)
Inductive HttpCall : Type :=
  | Post (url : string) (formData : FormData) (file_uri : string)
  | Get (url : string) (file_uri : string) (id : JsValue).

(** A timer armed by [setTimeout(() => { stack_collector(file_uri, id) }, ms)]. *)
Record Timer : Type := {
  timeout : Z;
  timer_file_uri : string;
  timer_id : JsValue
}.

(** What the [request] module passes to a callback [(err, httpResponse, body)]:
    an error, with [httpResponse] and [body] undefined, or a response. *)
Inductive RequestResult : Type :=
  | RequestError (err : string)
  | RequestDone (statusCode : Z) (body : string).

(** The module-level state: the two tables, the calls made so far to the
    [request] module (oldest first; a call stays listed once answered), the
    timers armed so far, and the manifests handed to the collector whose
    promise is not settled yet. *)
Record World : Type := {
  stack_analysis_requests : gmap string JsValue;
  stack_analysis_responses : gmap string Json;
  http_calls : list HttpCall;
  timers : list Timer;
  collecting : list (string * option string)
}.

Definition initial_world : World :=
  {| stack_analysis_requests := ∅;
     stack_analysis_responses := ∅;
     http_calls := [];
     timers := [];
     collecting := [] |}.

(** [c] is a submission for the document [uri]. *)
Definition submits (uri : string) (c : HttpCall) : bool :=
  match c with
  | Post _ _ file_uri => String.eqb file_uri uri
  | Get _ _ _ => false
  end.

(** The submissions made so far for the document [uri]. *)
Definition submissions (uri : string) (w : World) : list HttpCall :=
  List.filter (submits uri) (http_calls w).

(** ** State of one manifest-analysis run *)

(** [Diagnostic] of vscode-languageserver. *)
Record Diagnostic : Type := {
  range : (Z * Z) * (Z * Z);
  severity : Z;
  message : string;
  source : string
}.

(** What a run does that is visible outside its callbacks, in order. *)
Inductive Effect : Type :=
  | PipelineRun (dependency : IDependency) (response : Json)
  | Aggregate (dependency : IDependency)
  | SendDiagnostics (uri : string) (diagnostics : list Diagnostic).

(** The variables the callbacks of one run close over, other than the
    aggregator: the [diagnostics] array they share, and the effects so far. *)
Record Run : Type := {
  diagnostics : list Diagnostic;
  trace : list Effect
}.

(** What reaches the [http.get] callback of [get_metadata]: the response
    ended with a status and a body, or the request failed and no response
    ever arrived. *)
Inductive HttpGetResult : Type :=
  | HttpEnd (statusCode : Z) (body : string)
  | HttpFailed.

(** ** Sample data

    Concrete values on which the statements below are evaluated. *)

Module Sample.
Definition left_pad : IDependency :=
  {| ref := 1; name := "left-pad"; version := "1.0.0" |}.
Definition lodash : IDependency :=
  {| ref := 2; name := "lodash"; version := "4.17.0" |}.

Definition uri : string := "file:///project/package.json".

(** The defaults of [new AnalysisConfig()]. *)
Definition config : AnalysisConfig :=
  {| server_url := "http://ose-vm1.lab.eng.blr.redhat.com:32000/api/v1";
     forbidden_licenses := [];
     no_crypto := false;
     home_dir := "/home/user" |}.

Definition quote : string := String "034"%char "".

(** The bodies [{"status":"success"}], [{"error":"in progress"}],
    [{"status":"success","id":"7f3a"}] and [{"status":{"toString":1}}]. *)
Definition body_success : string :=
  "{" ++ quote ++ "status" ++ quote ++ ":" ++ quote ++ "success" ++ quote ++ "}".
Definition body_in_progress : string :=
  "{" ++ quote ++ "error" ++ quote ++ ":" ++ quote ++ "in progress" ++ quote ++ "}".
Definition body_submitted : string :=
  "{" ++ quote ++ "status" ++ quote ++ ":" ++ quote ++ "success" ++ quote ++ ","
      ++ quote ++ "id" ++ quote ++ ":" ++ quote ++ "7f3a" ++ quote ++ "}".

Definition body_odd_status : string :=
  "{" ++ quote ++ "status" ++ quote ++ ":{" ++ quote ++ "toString" ++ quote ++ ":1}}".

(** [JSON.parse] restricted to the four bodies above; it throws on any
    other text. *)
Definition parse (body : string) : option Json :=
  if String.eqb body body_success then
    Some (JObj [("status", JStr "success")])
  else if String.eqb body body_in_progress then
    Some (JObj [("error", JStr "in progress")])
  else if String.eqb body body_submitted then
    Some (JObj [("status", JStr "success"); ("id", JStr "7f3a")])
  else if String.eqb body body_odd_status then
    Some (JObj [("status", JObj [("toString", JNum "1")])])
  else None.

(** An engine that finds nothing to report. *)
Definition quiet (cfg : AnalysisConfig) (dependency : IDependency)
    (response : Json) : list Diagnostic := [].

(** An engine that reports every dependency it is given. *)
Definition loud (cfg : AnalysisConfig) (dependency : IDependency)
    (response : Json) : list Diagnostic :=
  [ {| range := ((0, 0), (0, 0))%Z; severity := 3;
       message := name dependency; source := "sample" |} ].

(** [RegExp] restricted to the pattern of the program: a compiled pattern
    is its text. *)
Definition regexp_new (pattern : string) : string := pattern.
Definition regexp_test (pattern file : string) : bool :=
  String.eqb pattern "^package\.json$" && String.eqb file "package.json".

(** [url.parse(uri).pathname] for a [file://] URI without host, query or
    fragment. *)
Definition pathname (uri : string) : string :=
  if String.prefix "file://" uri
  then String.substring 7 (String.length uri - 7) uri
  else uri.

Fixpoint basename_from (last : string) (path : string) : string :=
  match path with
  | EmptyString => last
  | String c rest =>
      if Ascii.eqb c "/" then basename_from "" rest
      else basename_from (last ++ String c "") rest
  end.

(** [path.basename] for a path that does not end with a slash. *)
Definition basename (path : string) : string := basename_from "" path.

Definition other_uri : string := "file:///project/README.md".
End Sample.

(** ** The program *)

Section Server.
(** [JSON.parse]: [None] when it throws a SyntaxError. *)
Variable JSON_parse : string → option Json.

(** [RegExp]: the constructor and [test]. *)
Context {RegExp : Type}.
Variable RegExp_new : string → RegExp.
Variable RegExp_test : RegExp → string → bool.

(** [url.parse(uri).pathname] and [path.basename], on document URIs. *)
Variable url_parse_pathname : string → string.
Variable path_basename : string → string.

(** The engines of [./consumers]: what an engine appends to the shared
    array for one dependency and one response. *)
Definition Engine : Type :=
  AnalysisConfig → IDependency → Json → list Diagnostic.
Variables LicenseEngine SecurityEngine EmptyResultEngine CryptoEngine : Engine.

(** [let config = new AnalysisConfig()], after the [.analysis_rc] file has
    been merged in; it is not written afterwards. *)
Variable config : AnalysisConfig.

(** [let DiagnosticsEngines = [...]; if (config.no_crypto) { ...push(CryptoEngine) }] *)
Definition DiagnosticsEngines : list Engine :=
  [LicenseEngine; SecurityEngine; EmptyResultEngine]
  ++ (if no_crypto config then [CryptoEngine] else []).

(** Modelled from the spec: the class [DiagnosticsPipeline] of
    [./consumers] is not among the sources.  [run(response)] invokes every
    consumer in list order against the same response and dependency, each
    appending zero or more entries to the shared buffer. *)
Definition DiagnosticsPipeline_run (engines : list Engine)
    (dependency : IDependency) (cfg : AnalysisConfig)
    (response : Json) (buffer : list Diagnostic) : list Diagnostic :=
  buffer ++ concat (map (λ engine : Engine, engine cfg dependency response) engines).

(** *** [stack_collector] *)

(** The body of [stack_collector] up to the call of [request.get]: when
    the id cannot be converted to a string, building the query throws and no
    request is made. *)
Definition stack_collector (file_uri : string) (id : JsValue) (w : World)
    : Completion World :=
  match template id with
  | None => Threw "TypeError" w
  | Some text =>
      let query := server_url config ++ "/stack-analyses/" ++ text in
      Returned
        {| stack_analysis_requests := stack_analysis_requests w;
           stack_analysis_responses := stack_analysis_responses w;
           http_calls := http_calls w ++ [Get query file_uri id];
           timers := timers w;
           collecting := collecting w |}
  end.

(** The callback passed to [request.get].  With an error [body] is
    undefined and [JSON.parse] throws; [data.status] throws on [null]; the
    comparison of the status throws when the status cannot be converted. *)
Definition stack_collector_callback (file_uri : string) (id : JsValue)
    (result : RequestResult) (w : World) : Completion World :=
  match result with
  | RequestError _ => Threw "SyntaxError" w
  | RequestDone statusCode body =>
      match JSON_parse body with
      | None => Threw "SyntaxError" w
      | Some data =>
          match get_prop data "status" with
          | None => Threw "TypeError" w
          | Some status =>
              match loose_eq_word status "success" with
              | None => Threw "TypeError" w
              | Some true =>
                  Returned
                    {| stack_analysis_requests := stack_analysis_requests w;
                       stack_analysis_responses :=
                         <[file_uri := data]> (stack_analysis_responses w);
                       http_calls := http_calls w;
                       timers := timers w;
                       collecting := collecting w |}
              | Some false =>
                  if (statusCode =? 202)%Z then
                    Returned
                      {| stack_analysis_requests := stack_analysis_requests w;
                         stack_analysis_responses := stack_analysis_responses w;
                         http_calls := http_calls w;
                         timers :=
                           timers w ++
                           [ {| timeout := 10000;
                                timer_file_uri := file_uri;
                                timer_id := id |} ];
                         collecting := collecting w |}
                  else Returned w
              end
          end
      end
  end.

(** A timer comes due: its closure calls [stack_collector]. *)
Definition fire (t : Timer) (w : World) : Completion World :=
  stack_collector (timer_file_uri t) (timer_id t) w.

(** *** [get_stack_metadata] *)

(** [a || b] on an optional string: [undefined] and [''] are falsy. *)
Definition or_else (a : option string) (b : string) : string :=
  match a with
  | None => b
  | Some s => if String.eqb s "" then b else s
  end.

(** The body of [get_stack_metadata] up to the call of [request.post]:
    nothing is done when [file_uri] is a property of
    [stack_analysis_requests]. *)
Definition get_stack_metadata (file_uri : string) (context : StackContext)
    (w : World) : World :=
  if bool_decide (is_Some (stack_analysis_requests w !! file_uri)) then w
  else
    let query := server_url config ++ "/stack-analyses/" in
    let form_data :=
      {| form_manifest := manifest context;
         form_filename := "package.json";
         form_contentType := "application/json";
         form_origin := or_else (origin context) "lsp" |} in
    {| stack_analysis_requests := stack_analysis_requests w;
       stack_analysis_responses := stack_analysis_responses w;
       http_calls := http_calls w ++ [Post query form_data file_uri];
       timers := timers w;
       collecting := collecting w |}.

Definition is_undefined (v : JsValue) : bool :=
  match v with
  | None => true
  | Some _ => false
  end.

(** The callback passed to [request.post]: the request id is recorded, and
    the first poll scheduled, only here.  The status is compared only when
    there is no [error] property. *)
Definition get_stack_metadata_callback (file_uri : string)
    (result : RequestResult) (w : World) : Completion World :=
  match result with
  | RequestError _ => Returned w
  | RequestDone _ body =>
      match JSON_parse body with
      | None => Threw "SyntaxError" w
      | Some resp =>
          match get_prop resp "error", get_prop resp "status", get_prop resp "id" with
          | Some error, Some status, Some id =>
              if is_undefined error then
                match loose_eq_word status "success" with
                | None => Threw "TypeError" w
                | Some true =>
                    Returned
                      {| stack_analysis_requests :=
                           <[file_uri := id]> (stack_analysis_requests w);
                         stack_analysis_responses := stack_analysis_responses w;
                         http_calls := http_calls w;
                         timers :=
                           timers w ++
                           [ {| timeout := 10000;
                                timer_file_uri := file_uri;
                                timer_id := id |} ];
                         collecting := collecting w |}
                | Some false => Returned w
                end
              else Returned w
          | _, _, _ => Threw "TypeError" w
          end
      end
  end.

(** *** [get_metadata] *)

(** The URL requested for one dependency. *)
Definition get_metadata_query (ecosystem name0 version0 : string) : string :=
  let part := ecosystem ++ "/" ++ name0 ++ "/" ++ version0 in
  server_url config ++ "/analyses/" ++ part ++ "/".

(** What [get_metadata] passes to [cb], if it calls it at all: the parsed
    body on status 200 or 202, [null] on any other status.  [cb] is not
    called when [JSON.parse] throws in the ['end'] listener, nor when the
    request fails, as no response reaches the [http.get] callback then. *)
Definition get_metadata (result : HttpGetResult) : option Json :=
  match result with
  | HttpEnd statusCode body =>
      if (statusCode =? 200)%Z || (statusCode =? 202)%Z
      then JSON_parse body
      else Some JNull
  | HttpFailed => None
  end.

(** *** The handler registered for [package.json] *)

(** The completion callback given to the aggregator: the array is read when
    the callback runs. *)
Definition publish (uri : string) (st : Run) : Run :=
  {| diagnostics := diagnostics st;
     trace := trace st ++ [SendDiagnostics uri (diagnostics st)] |}.

(** The body of the [then] callback: a fresh array, the aggregator over
    [deps], and one [get_metadata] call for each dependency, of which the
    URLs are returned. *)
Definition start_run (uri : string) (deps : list IDependency)
    : (Aggregator.t Run * Run) * list string :=
  let diagnostics0 := [] in
  let aggregator := Aggregator.new deps (publish uri) in
  (aggregator, {| diagnostics := diagnostics0; trace := [] |},
   map (λ dependency, get_metadata_query "npm" (name dependency) (version dependency))
       deps).

Definition is_null (v : Json) : bool :=
  match v with
  | JNull => true
  | _ => false
  end.

(** The callback given to [get_metadata] for [dependency]. *)
Definition on_metadata (dependency : IDependency) (response : Json)
    (s : Aggregator.t Run * Run) : Aggregator.t Run * Run :=
  let (aggregator, st) := s in
  let st1 :=
    if negb (is_null response) then
      {| diagnostics :=
           DiagnosticsPipeline_run DiagnosticsEngines dependency config
                                   response (diagnostics st);
         trace := trace st ++ [PipelineRun dependency response] |}
    else st in
  let st2 := {| diagnostics := diagnostics st1;
                trace := trace st1 ++ [Aggregate dependency] |} in
  Aggregator.aggregate dependency aggregator st2.

(** The fetch for [dependency] comes to its end with [result]. *)
Definition fetch_done (s : Aggregator.t Run * Run)
    (arrival : IDependency * HttpGetResult) : Aggregator.t Run * Run :=
  match get_metadata arrival.2 with
  | Some response => on_metadata arrival.1 response s
  | None => s
  end.

(** One run: the collector resolves with [deps], then the fetches come to
    their end in the order of [arrivals]. *)
Definition manifest_run (uri : string) (deps : list IDependency)
    (arrivals : list (IDependency * HttpGetResult)) : Aggregator.t Run * Run :=
  foldl fetch_done (start_run uri deps).1 arrivals.

(** The handler itself, up to the [then]: the manifest is handed to the
    collector after the stack analysis has been asked for. *)
Definition package_json_handler
    : AnalysisFiles.IFileHandlerCallback World unit :=
  λ uri _ contents w,
    let w1 := get_stack_metadata uri {| manifest := contents; origin := None |} w in
    (tt,
     {| stack_analysis_requests := stack_analysis_requests w1;
        stack_analysis_responses := stack_analysis_responses w1;
        http_calls := http_calls w1;
        timers := timers w1;
        collecting := collecting w1 ++ [(uri, contents)] |}).

(** [let files = new AnalysisFiles()] after the one call of [files.on]. *)
Definition files : AnalysisFiles.t RegExp World unit :=
  AnalysisFiles.on RegExp_new Diagnostics "^package\.json$"
                   package_json_handler AnalysisFiles.new.

(** *** [class AnalysisLSPServer] *)

Definition ServerState : Type := AnalysisFiles.t RegExp World unit * World.

Definition handle_file_event (uri : string) (contents : option string)
    (s : ServerState) : ServerState :=
  let path_name := url_parse_pathname uri in
  let file_name := path_basename path_name in
  let files1 := AnalysisFiles.set_file_data uri contents s.1 in
  (files1,
   (AnalysisFiles.run RegExp_test files1 Diagnostics uri file_name contents s.2).2).

(** The result is what [run] returns: [None] is [undefined]. *)
Definition handle_code_lens_event (uri : string) (s : ServerState)
    : option unit * ServerState :=
  let path_name := url_parse_pathname uri in
  let file_name := path_basename path_name in
  let contents := AnalysisFiles.file_data s.1 !! uri in
  let (result, w) :=
    AnalysisFiles.run RegExp_test s.1 CodeLens uri file_name contents s.2 in
  (result, (s.1, w)).

(** *** The notifications of the connection *)

(** [connection.onDidSaveTextDocument]: the contents are the cached ones. *)
Definition onDidSaveTextDocument (uri : string) (s : ServerState) : ServerState :=
  handle_file_event uri (AnalysisFiles.file_data s.1 !! uri) s.

(** [connection.onDidChangeTextDocument]: the text of the first change is
    cached.  When the array of changes is empty, reading [.text] of its
    first element throws, and nothing is written. *)
Definition onDidChangeTextDocument (uri : string) (contentChanges : list string)
    (s : ServerState) : Completion ServerState :=
  match contentChanges with
  | [] => Threw "TypeError" s
  | text :: _ => Returned (AnalysisFiles.set_file_data uri (Some text) s.1, s.2)
  end.

(** [connection.onDidOpenTextDocument] *)
Definition onDidOpenTextDocument (uri text : string) (s : ServerState) : ServerState :=
  handle_file_event uri (Some text) s.

(** *** The event loop *)

(** What the event loop can hand to the module: a notification of the
    editor, the answer to a [request.post] or [request.get] with the variables
    its callback closes over, or a timer that is due. *)
Inductive Event : Type :=
  | DidOpen (uri text : string)
  | DidChange (uri : string) (contentChanges : list string)
  | DidSave (uri : string)
  | PostAnswered (file_uri : string) (result : RequestResult)
  | GetAnswered (file_uri : string) (id : JsValue) (result : RequestResult)
  | TimerDue (t : Timer).

(** One turn of the event loop.  A callback that throws ends there; later
    callbacks see the state it left. *)
Definition deliver (s : ServerState) (e : Event) : ServerState :=
  match e with
  | DidOpen uri text => onDidOpenTextDocument uri text s
  | DidChange uri contentChanges =>
      state_of (onDidChangeTextDocument uri contentChanges s)
  | DidSave uri => onDidSaveTextDocument uri s
  | PostAnswered file_uri result =>
      (s.1, state_of (get_stack_metadata_callback file_uri result s.2))
  | GetAnswered file_uri id result =>
      (s.1, state_of (stack_collector_callback file_uri id result s.2))
  | TimerDue t => (s.1, state_of (fire t s.2))
  end.

Definition deliver_all (s : ServerState) (events : list Event) : ServerState :=
  foldl deliver s events.

(** *** Vocabulary of the statements *)

(** The file name that [handle_file_event] matches for [uri]. *)
Definition file_name_of (uri : string) : string :=
  path_basename (url_parse_pathname uri).

(** The pattern registered by the program matches the file name of [uri]. *)
Definition is_manifest (uri : string) : bool :=
  RegExp_test (RegExp_new "^package\.json$") (file_name_of uri).

(** [e] is an open or a save of the document [uri]. *)
Definition opens_or_saves (uri : string) (e : Event) : bool :=
  match e with
  | DidOpen uri' _ => String.eqb uri' uri
  | DidSave uri' => String.eqb uri' uri
  | _ => false
  end.

(** The turns of the poll loop of one request: each round the timer comes
    due and the [request.get] it makes is answered by the next result. *)
Definition poll_rounds (file_uri : string) (id : JsValue)
    (results : list RequestResult) : list Event :=
  flat_map (λ result, [TimerDue {| timeout := 10000;
                                   timer_file_uri := file_uri;
                                   timer_id := id |};
                       GetAnswered file_uri id result]) results.

(** The dependencies of the arrivals at which [get_metadata] calls its
    callback. *)
Definition answered (arrivals : list (IDependency * HttpGetResult))
    : list IDependency :=
  (filter (λ a, is_Some (get_metadata a.2)) arrivals).*1.

(** What the engines report over a sequence of arrivals, in the order of
    the arrivals: nothing for an arrival whose callback is not called or is
    given [null]. *)
Definition findings (arrivals : list (IDependency * HttpGetResult))
    : list Diagnostic :=
  flat_map (λ a, match get_metadata a.2 with
                 | Some response =>
                     if is_null response then []
                     else DiagnosticsPipeline_run DiagnosticsEngines a.1 config
                                                  response []
                 | None => []
                 end) arrivals.

(** A stored poll result reports success. *)
Definition reports_success (data : Json) : Prop :=
  ∃ status, get_prop data "status" = Some status
            ∧ loose_eq_word status "success" = Some true.

(** The handler that [on] pushes for a registration. *)
Definition handler_of {W R : Type} (reg : AnalysisFiles.Registration W R)
    : AnalysisFiles.AnalysisFileHandler RegExp W R :=
  {| AnalysisFiles.matcher := RegExp_new (AnalysisFiles.reg_matcher reg);
     AnalysisFiles.stream := AnalysisFiles.reg_stream reg;
     AnalysisFiles.callback := AnalysisFiles.reg_callback reg |}.

(** A poll response whose body is JSON with [status] equal to ['success'];
    [data] is the parsed body. *)
Definition poll_success (result : RequestResult) (data : Json) : Prop :=
  ∃ statusCode body status,
    result = RequestDone statusCode body ∧
    JSON_parse body = Some data ∧
    get_prop data "status" = Some status ∧
    loose_eq_word status "success" = Some true.

(** A poll response saying that the analysis is in progress: status code
    202 with a JSON body whose status compares unequal to ['success']. *)
Definition poll_in_progress (result : RequestResult) : Prop :=
  ∃ body data status,
    result = RequestDone 202 body ∧
    JSON_parse body = Some data ∧
    get_prop data "status" = Some status ∧
    loose_eq_word status "success" = Some false.

(** The timer armed by the poll loop. *)
Definition poll_timer (file_uri : string) (id : JsValue) : Timer :=
  {| timeout := 10000; timer_file_uri := file_uri; timer_id := id |}.

(** The effects of one call of the [get_metadata] callback of
    [dependency]: the pipeline run, if there is one, then the call of
    [aggregate], then the publication, if [aggregate] makes it. *)
Inductive callback_effects (uri : string) (dependency : IDependency)
    : list Effect → Prop :=
  | effects_none :
      callback_effects uri dependency []
  | effects_aggregate published :
      (length published ≤ 1)%nat →
      Forall (λ e, ∃ ds, e = SendDiagnostics uri ds) published →
      callback_effects uri dependency (Aggregate dependency :: published)
  | effects_pipeline response published :
      (length published ≤ 1)%nat →
      Forall (λ e, ∃ ds, e = SendDiagnostics uri ds) published →
      callback_effects uri dependency
        (PipelineRun dependency response :: Aggregate dependency :: published).

(** The entries appended to the shared array by the pipeline runs of a
    sequence of effects, in order. *)
Definition emitted (effects : list Effect) : list Diagnostic :=
  flat_map (λ e, match e with
                 | PipelineRun dependency response =>
                     DiagnosticsPipeline_run DiagnosticsEngines dependency
                                             config response []
                 | _ => []
                 end) effects.

(** The shared array holds what the pipeline runs so far have appended, and
    a publication carries what had been appended when it was made. *)
Definition buffer_follows_trace (st : Run) : Prop :=
  diagnostics st = emitted (trace st)
  ∧ ∀ i u ds, trace st !! i = Some (SendDiagnostics u ds) →
              ds = emitted (take i (trace st)).

(** ** Properties of the aggregator *)

Local Open Scope list_scope.

Section AggregatorFacts.
Context {W : Type}.
Implicit Types (a : Aggregator.t W) (w : W) (k dep : IDependency).

(** [is_ready] holds exactly when no key is mapped to [false]. *)
Lemma is_ready_true a :
  Aggregator.is_ready a = true ↔
  ∀ k b, Aggregator.mapping a !! k = Some b → b = true.
Proof.
  unfold Aggregator.is_ready.
  apply (map_fold_weak_ind
           (λ r m, r = true ↔ ∀ k b, m !! k = Some b → b = true)).
  - split; [intros _ k b; by rewrite lookup_empty | done].
  - intros i x m r Hi [IH1 IH2]. rewrite andb_true_iff. split.
    + intros [Hr ->] k b. rewrite lookup_insert.
      case_decide; [congruence | by apply IH1].
    + intros H. split.
      * apply IH2. intros k b Hk. apply (H k).
        rewrite lookup_insert_ne; [done|]. intros ->. congruence.
      * apply (H i). by rewrite lookup_insert_eq.
Qed.

Lemma is_ready_false a k :
  Aggregator.mapping a !! k = Some false → Aggregator.is_ready a = false.
Proof.
  intros Hk. destruct (Aggregator.is_ready a) eqn:E; [|done].
  rewrite is_ready_true in E. by apply E in Hk.
Qed.

Lemma mapping_new items (cb : W → W) k :
  Aggregator.mapping (Aggregator.new items cb) !! k =
  if decide (k ∈ items) then Some false else None.
Proof.
  unfold Aggregator.new. simpl.
  assert (∀ m : gmap IDependency bool,
             foldl (λ m item, <[item := false]> m) m items !! k =
             if decide (k ∈ items) then Some false else m !! k) as Hgen.
  { induction items as [|i items IH]; intros m; simpl.
    - destruct (decide (k ∈ [])) as [Hin|_]; [by apply elem_of_nil in Hin | done].
    - rewrite IH.
      destruct (decide (k ∈ items)) as [Hin|Hnin],
               (decide (k ∈ i :: items)) as [Hin'|Hnin']; try done.
      + exfalso. apply Hnin'. by right.
      + apply elem_of_cons in Hin' as [->|?]; [|done].
        by rewrite lookup_insert_eq.
      + rewrite lookup_insert_ne; [done|]. intros ->. apply Hnin'. by left. }
  rewrite Hgen. by rewrite lookup_empty.
Qed.

Lemma aggregate_mapping dep a w :
  Aggregator.mapping (Aggregator.aggregate dep a w).1 =
  <[dep := true]> (Aggregator.mapping a).
Proof. unfold Aggregator.aggregate. by case_match. Qed.

Lemma aggregate_callback dep a w :
  Aggregator.callback (Aggregator.aggregate dep a w).1 = Aggregator.callback a.
Proof. unfold Aggregator.aggregate. by case_match. Qed.

Lemma aggregate_all_snoc calls dep (s : Aggregator.t W * W) :
  Aggregator.aggregate_all (calls ++ [dep]) s =
  Aggregator.aggregate dep (Aggregator.aggregate_all calls s).1
                           (Aggregator.aggregate_all calls s).2.
Proof. unfold Aggregator.aggregate_all. by rewrite foldl_app. Qed.

Lemma aggregate_all_callback calls a w :
  Aggregator.callback (Aggregator.aggregate_all calls (a, w)).1 =
  Aggregator.callback a.
Proof.
  induction calls as [|dep calls IH] using rev_ind; [done|].
  by rewrite aggregate_all_snoc, aggregate_callback.
Qed.

(** After the calls, a key that was passed is [true]; the others are as
    they were. *)
Lemma aggregate_all_mapping calls a w k :
  Aggregator.mapping (Aggregator.aggregate_all calls (a, w)).1 !! k =
  if decide (k ∈ calls) then Some true else Aggregator.mapping a !! k.
Proof.
  induction calls as [|dep calls IH] using rev_ind.
  - simpl. destruct (decide (k ∈ [])) as [Hin|_]; [by apply elem_of_nil in Hin | done].
  - rewrite aggregate_all_snoc, aggregate_mapping, lookup_insert, IH.
    destruct (decide (dep = k)) as [->|Hne].
    + rewrite decide_True; [done|]. apply elem_of_app. right. by left.
    + destruct (decide (k ∈ calls)) as [Hin|Hnin].
      * rewrite decide_True; [done|]. apply elem_of_app. by left.
      * rewrite decide_False; [done|]. intros [?|Hk]%elem_of_app; [done|].
        apply list_elem_of_singleton in Hk. congruence.
Qed.

(** While some key is still [false] and is not passed, the state the
    callback acts on does not move. *)
Lemma aggregate_all_pending calls a w k :
  Aggregator.mapping a !! k = Some false → k ∉ calls →
  (Aggregator.aggregate_all calls (a, w)).2 = w.
Proof.
  intros Hk. induction calls as [|dep calls IH] using rev_ind; [done|].
  intros Hnotin. rewrite aggregate_all_snoc.
  assert ((k ∉ calls) ∧ k ≠ dep) as [Hc Hd].
  { split; [intros ?|intros ->]; apply Hnotin, elem_of_app;
      [by left | right; by left]. }
  unfold Aggregator.aggregate.
  rewrite (is_ready_false _ k); [by apply IH|].
  simpl. rewrite lookup_insert_ne by done.
  rewrite aggregate_all_mapping. by case_decide.
Qed.

(** A call after which every key is [true] runs the callback once. *)
Lemma aggregate_fires dep a w :
  (∀ k b, Aggregator.mapping a !! k = Some b → k ≠ dep → b = true) →
  (Aggregator.aggregate dep a w).2 = Aggregator.callback a w.
Proof.
  intros Hall. unfold Aggregator.aggregate.
  assert (Aggregator.is_ready
            {| Aggregator.mapping := <[dep := true]> (Aggregator.mapping a);
               Aggregator.callback := Aggregator.callback a |} = true) as ->; [|done].
  apply is_ready_true. intros k b. simpl. rewrite lookup_insert.
  case_decide; [congruence|]. intros Hk. by apply (Hall k).
Qed.

(** A call after which some key is [false] does not run it. *)
Lemma aggregate_silent dep a w k :
  Aggregator.mapping a !! k = Some false → k ≠ dep →
  (Aggregator.aggregate dep a w).2 = w.
Proof.
  intros Hk Hne. unfold Aggregator.aggregate.
  rewrite (is_ready_false _ k); [done|].
  simpl. by rewrite lookup_insert_ne.
Qed.
End AggregatorFacts.

(** The aggregator counting its own completions, before any call. *)
Lemma invocations_snoc items calls dep :
  invocations items (calls ++ [dep]) =
  (Aggregator.aggregate dep
     (Aggregator.aggregate_all calls (Aggregator.new items S, 0%nat)).1
     (invocations items calls)).2.
Proof. unfold invocations. by rewrite aggregate_all_snoc. Qed.

(** C1 (amended).  For every list of keys [items]: the completion callback
    is called at an [aggregate] call only if every key of [items] has been
    passed to [aggregate] by then; and when [items] is not empty and every
    key of it is passed exactly once, in any order, the callback is called
    exactly once over the whole run. *)
Theorem aggregator_callback_once_after_all (items : list IDependency) :
  (∀ pre dep,
      invocations items (pre ++ [dep]) ≠ invocations items pre →
      ∀ k, k ∈ items → k ∈ pre ++ [dep])
  ∧ (∀ calls,
        items ≠ [] → NoDup calls → (∀ k, k ∈ calls ↔ k ∈ items) →
        invocations items calls = 1%nat).
Proof.
  split.
  - intros pre dep Hfired k Hk.
    destruct (decide (k ∈ pre ++ [dep])) as [|Hnotin]; [done|].
    exfalso. apply Hfired.
    assert (Aggregator.mapping (Aggregator.new items S) !! k = Some false) as Hfalse.
    { rewrite mapping_new. by rewrite decide_True. }
    unfold invocations.
    rewrite (aggregate_all_pending _ _ _ k Hfalse Hnotin).
    rewrite (aggregate_all_pending _ _ _ k Hfalse); [done|].
    intros ?. apply Hnotin, elem_of_app. by left.
  - intros calls Hne Hnodup Hcover.
    destruct calls as [|dep calls _] using rev_ind.
    { destruct items as [|i items]; [done|].
      exfalso. apply (elem_of_nil i), Hcover. by left. }
    apply NoDup_app in Hnodup as (_ & Hdisj & _).
    assert (dep ∉ calls) as Hfresh.
    { intros Hin. apply (Hdisj dep Hin). by left. }
    assert (Aggregator.mapping (Aggregator.new items S) !! dep = Some false) as Hfalse.
    { rewrite mapping_new, decide_True; [done|].
      apply Hcover, elem_of_app. right. by left. }
    rewrite invocations_snoc, aggregate_fires.
    + rewrite aggregate_all_callback. simpl. f_equal.
      unfold invocations. by apply (aggregate_all_pending _ _ _ dep).
    + intros k b. rewrite aggregate_all_mapping, mapping_new.
      destruct (decide (k ∈ calls)) as [|Hnotin]; [congruence|].
      destruct (decide (k ∈ items)) as [Hin|]; [|done].
      intros _ Hk. apply Hcover, elem_of_app in Hin as [?|Hin]; [done|].
      apply list_elem_of_singleton in Hin. congruence.
Qed.

(** C3 (amended).  Once every key the aggregator was built over has been
    passed to [aggregate], passing an already completed key again calls the
    callback once more. *)
Theorem aggregate_again_calls_back_again (items calls : list IDependency)
    (dep : IDependency) :
  (∀ k, k ∈ items → k ∈ calls) → dep ∈ calls →
  invocations items (calls ++ [dep]) = S (invocations items calls).
Proof.
  intros Hcover _. rewrite invocations_snoc, aggregate_fires.
  - by rewrite aggregate_all_callback.
  - intros k b. rewrite aggregate_all_mapping, mapping_new.
    destruct (decide (k ∈ calls)) as [|Hnotin]; [congruence|].
    destruct (decide (k ∈ items)) as [Hin|]; [|done].
    by apply Hcover in Hin.
Qed.

(** C9.  Over every sequence of [aggregate] calls a flag that is [true]
    stays [true], and an aggregator that is ready stays ready. *)
Theorem is_ready_monotone (W : Type) (a : Aggregator.t W) (w : W)
    (calls : list IDependency) :
  (∀ k, Aggregator.mapping a !! k = Some true →
        Aggregator.mapping (Aggregator.aggregate_all calls (a, w)).1 !! k = Some true)
  ∧ (Aggregator.is_ready a = true →
     Aggregator.is_ready (Aggregator.aggregate_all calls (a, w)).1 = true).
Proof.
  split.
  - intros k Hk. rewrite aggregate_all_mapping. by case_decide.
  - rewrite !is_ready_true. intros Hready k b.
    rewrite aggregate_all_mapping. case_decide; [congruence|]. apply Hready.
Qed.

(** ** Properties of the router *)

Section RouterFacts.
Context {W R : Type}.
Implicit Types (reg : AnalysisFiles.Registration W R)
               (regs : list (AnalysisFiles.Registration W R)).

(** Handlers are kept in the order of their registration. *)
Lemma registered_handlers regs :
  AnalysisFiles.handlers (AnalysisFiles.registered RegExp_new regs) =
  map handler_of regs.
Proof.
  unfold AnalysisFiles.registered.
  assert (∀ files0 : AnalysisFiles.t RegExp W R,
             AnalysisFiles.handlers
               (foldl (λ files reg,
                         AnalysisFiles.on RegExp_new
                           (AnalysisFiles.reg_stream reg)
                           (AnalysisFiles.reg_matcher reg)
                           (AnalysisFiles.reg_callback reg) files)
                      files0 regs) =
             AnalysisFiles.handlers files0 ++ map handler_of regs) as Hgen.
  { induction regs as [|reg regs IH]; intros files0; simpl.
    - by rewrite app_nil_r.
    - rewrite IH. simpl. by rewrite <- app_assoc. }
  by rewrite Hgen.
Qed.
End RouterFacts.

(** C6.  Let the handlers be registered by the calls [regs], in that order.
    Then [run] either calls the callback of the first registration whose
    stream is the one asked for and whose pattern matches the file name,
    calls no other, and returns what that callback returned; or no
    registration matches, no callback is called and [run] returns
    [undefined]. *)
Theorem run_calls_first_match (W R : Type)
    (regs : list (AnalysisFiles.Registration W R))
    (stream0 : EventStream) (uri file : string) (contents : option string)
    (w : W) :
  let matching reg :=
    AnalysisFiles.reg_stream reg = stream0 ∧
    RegExp_test (RegExp_new (AnalysisFiles.reg_matcher reg)) file = true in
  let result :=
    AnalysisFiles.run RegExp_test (AnalysisFiles.registered RegExp_new regs)
                      stream0 uri file contents w in
  (∃ pre reg post,
      regs = pre ++ reg :: post ∧
      Forall (λ r, ¬ matching r) pre ∧
      matching reg ∧
      result = (Some (AnalysisFiles.reg_callback reg uri file contents w).1,
                (AnalysisFiles.reg_callback reg uri file contents w).2))
  ∨ (Forall (λ r, ¬ matching r) regs ∧ result = (None, w)).
Proof.
  intros matching result. subst result. unfold AnalysisFiles.run.
  rewrite registered_handlers.
  induction regs as [|reg regs IH]; simpl.
  - right. by split.
  - destruct (bool_decide (AnalysisFiles.reg_stream reg = stream0)
              && RegExp_test (RegExp_new (AnalysisFiles.reg_matcher reg)) file)
      eqn:Hmatch.
    + left. exists [], reg, regs.
      apply andb_true_iff in Hmatch as [Hs%bool_decide_eq_true Ht].
      split; [done|]. split; [apply Forall_nil_2|]. split; [by split|].
      by destruct (AnalysisFiles.reg_callback reg uri file contents w).
    + assert (¬ matching reg) as Hno.
      { intros [Hs Ht]. apply andb_false_iff in Hmatch as [Hm|Hm].
        - by apply bool_decide_eq_false in Hm.
        - congruence. }
      destruct IH as [(pre & reg' & post & -> & Hpre & Hreg & Hres) | [Hall Hres]].
      * left. exists (reg :: pre), reg', post.
        split; [done|]. split; [by apply Forall_cons_2|]. by split.
      * right. split; [by apply Forall_cons_2 | done].
Qed.

(** C10.  Whatever the documents cached and whatever the state of the
    module, [handle_code_lens_event] returns [undefined] and calls no
    handler: the only handler of [files] is registered for
    [EventStream.Diagnostics]. *)
Theorem handle_code_lens_event_undefined (uri : string)
    (cached : gmap string string) (w : World) :
  let s := ({| AnalysisFiles.handlers := AnalysisFiles.handlers files;
               AnalysisFiles.file_data := cached |}, w) in
  handle_code_lens_event uri s = (None, s).
Proof.
  intros s. unfold handle_code_lens_event, AnalysisFiles.run. subst s.
  cbn [fst snd AnalysisFiles.handlers files AnalysisFiles.on AnalysisFiles.new app].
  cbn [AnalysisFiles.run_loop AnalysisFiles.stream].
  rewrite bool_decide_eq_false_2 by discriminate.
  reflexivity.
Qed.

(** The handlers are those of [files] for as long as the server runs:
    [handle_file_event] writes [file_data] only. *)
Lemma handle_file_event_handlers (uri : string) (contents : option string)
    (s : ServerState) :
  AnalysisFiles.handlers (handle_file_event uri contents s).1 =
  AnalysisFiles.handlers s.1.
Proof. reflexivity. Qed.

(** ** Properties of the stack-analysis correlator *)

Lemma submissions_snoc (uri : string) (w : World) (c : HttpCall) (w' : World) :
  http_calls w' = http_calls w ++ [c] →
  submissions uri w' =
  submissions uri w ++ (if submits uri c then [c] else []).
Proof.
  intros Hcalls. unfold submissions. rewrite Hcalls, List.filter_app. simpl.
  by destruct (submits uri c).
Qed.

(** While no request id is recorded for the document, every call of
    [get_stack_metadata] posts the manifest. *)
Lemma get_stack_metadata_idle (uri : string) (context : StackContext) (w : World) :
  stack_analysis_requests w !! uri = None →
  ∃ c, http_calls (get_stack_metadata uri context w) = http_calls w ++ [c]
       ∧ submits uri c = true
       ∧ stack_analysis_requests (get_stack_metadata uri context w) =
         stack_analysis_requests w.
Proof.
  intros Hidle. unfold get_stack_metadata.
  rewrite bool_decide_eq_false_2; [|rewrite Hidle; by intros [? ?]].
  eexists. simpl. split; [done|]. split; [apply String.eqb_refl | done].
Qed.

(** Once a request id is recorded for the document, [get_stack_metadata]
    does nothing. *)
Lemma get_stack_metadata_recorded (uri : string) (context : StackContext)
    (w : World) :
  is_Some (stack_analysis_requests w !! uri) →
  get_stack_metadata uri context w = w.
Proof.
  intros Hrec. unfold get_stack_metadata. by rewrite bool_decide_eq_true_2.
Qed.

(** The id is recorded by the callback of the submission, on a response
    that reports success without an [error] property. *)
Lemma get_stack_metadata_callback_records (uri body : string) (statusCode : Z)
    (resp : Json) (status id : JsValue) (w : World) :
  JSON_parse body = Some resp →
  get_prop resp "error" = Some None →
  get_prop resp "status" = Some status →
  loose_eq_word status "success" = Some true →
  get_prop resp "id" = Some id →
  ∃ w', get_stack_metadata_callback uri (RequestDone statusCode body) w = Returned w'
        ∧ stack_analysis_requests w' !! uri = Some id
        ∧ timers w' = timers w ++ [poll_timer uri id]
        ∧ http_calls w' = http_calls w.
Proof.
  intros Hparse Herror Hstatus Hsuccess Hid. unfold get_stack_metadata_callback.
  rewrite Hparse, Herror, Hstatus, Hid. simpl. rewrite Hsuccess.
  eexists. split; [done|]. simpl. by rewrite lookup_insert_eq.
Qed.

(** C4, on the code.  A second request for a document that arrives after
    the first has been submitted and before its response has been handled
    is submitted as well: two submissions are made, and the document still
    has no request id recorded. *)
Theorem second_request_before_response_is_submitted (uri : string)
    (context1 context2 : StackContext) (w : World) :
  stack_analysis_requests w !! uri = None →
  let w2 := get_stack_metadata uri context2 (get_stack_metadata uri context1 w) in
  length (submissions uri w2) = S (S (length (submissions uri w)))
  ∧ stack_analysis_requests w2 !! uri = None.
Proof.
  intros Hidle w2. subst w2.
  destruct (get_stack_metadata_idle uri context1 w Hidle) as (c1 & Hc1 & Hs1 & Hr1).
  assert (stack_analysis_requests (get_stack_metadata uri context1 w) !! uri = None)
    as Hidle1 by (by rewrite Hr1).
  destruct (get_stack_metadata_idle uri context2 _ Hidle1) as (c2 & Hc2 & Hs2 & Hr2).
  split; [|by rewrite Hr2].
  rewrite (submissions_snoc uri _ c2 _ Hc2), Hs2.
  rewrite (submissions_snoc uri _ c1 _ Hc1), Hs1.
  rewrite !length_app. simpl. lia.
Qed.

(** C7 (amended).  The callback of a poll, by the response it is given:
    - a body that parses to JSON with [status] ['success']: the parsed body
      is stored under the document URI, no timer is armed and no request is
      made;
    - status code 202 with a body that parses to JSON whose status compares
      unequal to ['success']: one timer of 10 000 ms is armed and nothing is
      stored; when the timer fires it makes one [request.get] if the id
      converts to a string, and none if the conversion throws;
    - anything else, be it an error, a body that does not parse whatever the
      status code, a [null] body, a status whose comparison throws, or
      another status code: the state is left as it was. *)
Theorem stack_collector_callback_cases (file_uri : string) (id : JsValue)
    (result : RequestResult) (w : World) :
  (∀ data, poll_success result data →
     ∃ w', stack_collector_callback file_uri id result w = Returned w'
           ∧ stack_analysis_responses w' =
             <[file_uri := data]> (stack_analysis_responses w)
           ∧ stack_analysis_requests w' = stack_analysis_requests w
           ∧ timers w' = timers w
           ∧ http_calls w' = http_calls w)
  ∧ (poll_in_progress result →
     ∃ w', stack_collector_callback file_uri id result w = Returned w'
           ∧ timers w' = timers w ++ [poll_timer file_uri id]
           ∧ stack_analysis_responses w' = stack_analysis_responses w
           ∧ stack_analysis_requests w' = stack_analysis_requests w
           ∧ http_calls w' = http_calls w
           ∧ (∀ text, template id = Some text →
                ∃ w'', fire (poll_timer file_uri id) w' = Returned w''
                       ∧ http_calls w'' =
                         http_calls w' ++
                         [Get (server_url config ++ "/stack-analyses/" ++ text)%string
                              file_uri id]
                       ∧ timers w'' = timers w'
                       ∧ stack_analysis_responses w'' = stack_analysis_responses w')
           ∧ (template id = None →
              fire (poll_timer file_uri id) w' = Threw "TypeError" w'))
  ∧ ((∀ data, ¬ poll_success result data) → ¬ poll_in_progress result →
     state_of (stack_collector_callback file_uri id result w) = w).
Proof.
  split; [|split].
  - intros data (statusCode & body & status & -> & Hparse & Hstatus & Hsuccess).
    simpl. rewrite Hparse, Hstatus, Hsuccess. by eexists.
  - intros (body & data & status & -> & Hparse & Hstatus & Hsuccess).
    simpl. rewrite Hparse, Hstatus, Hsuccess. eexists. split; [done|].
    split; [done|]. split; [done|]. split; [done|]. split; [done|].
    unfold fire, stack_collector. simpl. split.
    + intros text ->. by eexists.
    + by intros ->.
  - intros Hnot_success Hnot_progress.
    destruct result as [err | statusCode body]; [done|]. simpl.
    destruct (JSON_parse body) as [data|] eqn:Hparse; [|done].
    destruct (get_prop data "status") as [status|] eqn:Hstatus; [|done].
    destruct (loose_eq_word status "success") as [[|]|] eqn:Hsuccess; [| |done].
    + exfalso. apply (Hnot_success data). by exists statusCode, body, status.
    + destruct (statusCode =? 202)%Z eqn:Hcode; [|done].
      exfalso. apply Hnot_progress. apply Z.eqb_eq in Hcode as ->.
      by exists body, data, status.
Qed.

(** ** Properties of a manifest-analysis run *)

Lemma on_metadata_effects (uri : string) (dep : IDependency) (response : Json)
    (aggregator : Aggregator.t Run) (st : Run) :
  Aggregator.callback aggregator = publish uri →
  let s' := on_metadata dep response (aggregator, st) in
  Aggregator.callback s'.1 = publish uri
  ∧ Aggregator.mapping s'.1 = <[dep := true]> (Aggregator.mapping aggregator)
  ∧ ∃ effects, trace s'.2 = trace st ++ effects
               ∧ callback_effects uri dep effects
               ∧ (is_null response = true →
                  diagnostics s'.2 = diagnostics st
                  ∧ (effects = [Aggregate dep]
                     ∨ effects = [Aggregate dep; SendDiagnostics uri (diagnostics st)])).
Proof.
  intros Hcb. unfold on_metadata, Aggregator.aggregate. simpl.
  destruct (is_null response); simpl;
    match goal with |- context [Aggregator.is_ready ?a] =>
      destruct (Aggregator.is_ready a) end;
    simpl; rewrite ?Hcb; simpl;
    (split; [done|]); (split; [done|]); rewrite <- ?app_assoc; simpl;
    eexists; (split; [done|]); split; try done.
  - apply effects_aggregate; [simpl; lia|].
    apply Forall_singleton. by eexists.
  - intros _. split; [done|]. by right.
  - apply effects_aggregate; [simpl; lia | apply Forall_nil_2].
  - intros _. split; [done|]. by left.
  - apply effects_pipeline; [simpl; lia|].
    apply Forall_singleton. by eexists.
  - apply effects_pipeline; [simpl; lia | apply Forall_nil_2].
Qed.

Lemma fetch_done_effects (uri : string) (s : Aggregator.t Run * Run)
    (arrival : IDependency * HttpGetResult) :
  Aggregator.callback s.1 = publish uri →
  Aggregator.callback (fetch_done s arrival).1 = publish uri
  ∧ ∃ effects, trace (fetch_done s arrival).2 = trace s.2 ++ effects
               ∧ callback_effects uri arrival.1 effects.
Proof.
  intros Hcb. unfold fetch_done. destruct (get_metadata arrival.2) as [response|].
  - destruct s as [aggregator st].
    destruct (on_metadata_effects uri arrival.1 response aggregator st Hcb)
      as (Hcb' & _ & effects & Htrace & Heffects & _).
    split; [done|]. by exists effects.
  - split; [done|]. exists []. split; [by rewrite app_nil_r | constructor].
Qed.

Lemma manifest_run_snoc (uri : string) (deps : list IDependency)
    (arrivals : list (IDependency * HttpGetResult))
    (arrival : IDependency * HttpGetResult) :
  manifest_run uri deps (arrivals ++ [arrival]) =
  fetch_done (manifest_run uri deps arrivals) arrival.
Proof. unfold manifest_run. by rewrite foldl_app. Qed.

(** Where the calls of [aggregate] and of the pipeline are in the effects of
    one callback. *)
Lemma callback_effects_aggregate (uri : string) (dep d : IDependency)
    (effects : list Effect) (i : nat) :
  callback_effects uri dep effects →
  effects !! i = Some (Aggregate d) →
  d = dep ∧ ∀ j d', effects !! j = Some (Aggregate d') → j = i.
Proof.
  assert (∀ published k e,
             Forall (λ e, ∃ ds, e = SendDiagnostics uri ds) published →
             published !! k = Some e → ∀ d', e ≠ Aggregate d') as Hsend.
  { intros published k e Hall Hk d' ->.
    by destruct (proj1 (Forall_lookup _ _) Hall k _ Hk) as [ds ?]. }
  intros Heffects Hi. inversion Heffects as [|published ? Hall|response published ? Hall];
    subst effects.
  - done.
  - destruct i as [|i]; simpl in Hi.
    + split; [congruence|]. intros [|j] d' Hj; [done|]. simpl in Hj.
      by destruct (Hsend _ _ _ Hall Hj d').
    + by destruct (Hsend _ _ _ Hall Hi d).
  - destruct i as [|[|i]]; simpl in Hi; [done| |].
    + split; [congruence|]. intros [|[|j]] d' Hj; [done|done|]. simpl in Hj.
      by destruct (Hsend _ _ _ Hall Hj d').
    + by destruct (Hsend _ _ _ Hall Hi d).
Qed.

Lemma callback_effects_pipeline (uri : string) (dep d : IDependency)
    (response : Json) (effects : list Effect) (i : nat) :
  callback_effects uri dep effects →
  effects !! i = Some (PipelineRun d response) →
  i = 0%nat ∧ effects !! 1%nat = Some (Aggregate d).
Proof.
  assert (∀ published k e,
             Forall (λ e, ∃ ds, e = SendDiagnostics uri ds) published →
             published !! k = Some e → ∀ d' r, e ≠ PipelineRun d' r) as Hsend.
  { intros published k e Hall Hk d' r ->.
    by destruct (proj1 (Forall_lookup _ _) Hall k _ Hk) as [ds ?]. }
  intros Heffects Hi. inversion Heffects as [|published ? Hall|r published ? Hall];
    subst effects.
  - done.
  - destruct i as [|i]; simpl in Hi; [done|].
    by destruct (Hsend _ _ _ Hall Hi d response).
  - destruct i as [|[|i]]; simpl in Hi; [|done|].
    + split; [done|]. simpl. congruence.
    + by destruct (Hsend _ _ _ Hall Hi d response).
Qed.

(** What holds of the effects of a run after any arrivals. *)
Lemma manifest_run_trace (uri : string) (deps : list IDependency)
    (arrivals : list (IDependency * HttpGetResult)) :
  let t := trace (manifest_run uri deps arrivals).2 in
  Aggregator.callback (manifest_run uri deps arrivals).1 = publish uri
  ∧ (∀ i d, t !! i = Some (Aggregate d) → d ∈ arrivals.*1)
  ∧ (∀ i d r, t !! i = Some (PipelineRun d r) → t !! S i = Some (Aggregate d))
  ∧ (NoDup arrivals.*1 →
     ∀ i j d, t !! i = Some (Aggregate d) → t !! j = Some (Aggregate d) → i = j).
Proof.
  induction arrivals as [|arrival arrivals IH] using rev_ind.
  { simpl. split; [done|]. split; [|split].
    - intros i d Hi. by rewrite lookup_nil in Hi.
    - intros i d r Hi. by rewrite lookup_nil in Hi.
    - intros _ i j d Hi. by rewrite lookup_nil in Hi. }
  simpl in IH. destruct IH as (Hcb & Hin & Hnext & Huniq).
  rewrite manifest_run_snoc. simpl.
  destruct (fetch_done_effects uri _ arrival Hcb) as (Hcb' & effects & -> & Heffects).
  rewrite fmap_app. simpl.
  split; [done|]. split; [|split].
  - intros i d [Hi | [_ Hi]]%lookup_app_Some; apply elem_of_app.
    + left. by apply (Hin i).
    + right. apply list_elem_of_singleton.
      by apply (callback_effects_aggregate _ _ _ _ _ Heffects) in Hi as [-> _].
  - intros i d r [Hi | [Hle Hi]]%lookup_app_Some.
    + apply lookup_app_l_Some. by apply (Hnext i d r).
    + apply (callback_effects_pipeline _ _ _ _ _ _ Heffects) in Hi as [Hzero Hone].
      rewrite lookup_app_r by lia.
      by replace (S i - length (trace (manifest_run uri deps arrivals).2))%nat
        with 1%nat by lia.
  - intros Hnodup. apply NoDup_app in Hnodup as (Hnodup & Hfresh & _).
    intros i j d [Hi | [Hlei Hi]]%lookup_app_Some [Hj | [Hlej Hj]]%lookup_app_Some.
    + by apply (Huniq Hnodup i j d).
    + exfalso. apply (Hfresh d); [by apply (Hin i)|].
      apply list_elem_of_singleton.
      by apply (callback_effects_aggregate _ _ _ _ _ Heffects) in Hj as [-> _].
    + exfalso. apply (Hfresh d); [by apply (Hin j)|].
      apply list_elem_of_singleton.
      by apply (callback_effects_aggregate _ _ _ _ _ Heffects) in Hi as [-> _].
    + apply (callback_effects_aggregate _ _ _ _ _ Heffects) in Hi as [_ Hsame].
      apply Hsame in Hj. lia.
Qed.

Lemma emitted_app (t1 t2 : list Effect) :
  emitted (t1 ++ t2) = emitted t1 ++ emitted t2.
Proof. unfold emitted. apply flat_map_app. Qed.

Lemma buffer_follows_trace_snoc (st : Run) (e : Effect) (ds : list Diagnostic) :
  buffer_follows_trace st →
  ds = emitted (trace st ++ [e]) →
  (∀ u ds', e = SendDiagnostics u ds' → ds' = emitted (trace st)) →
  buffer_follows_trace {| diagnostics := ds; trace := trace st ++ [e] |}.
Proof.
  intros [Hbuf Hsent] -> He. split; [done|]. simpl.
  intros i u ds' [Hi | [Hle Hi]]%lookup_app_Some.
  - rewrite take_app_le; [by apply (Hsent i u)|].
    apply lookup_lt_Some in Hi. lia.
  - apply list_lookup_singleton_Some in Hi as [Hzero ->].
    replace i with (length (trace st)) by lia.
    rewrite take_app_length. by apply (He u).
Qed.

Lemma fetch_done_buffer (uri : string) (s : Aggregator.t Run * Run)
    (arrival : IDependency * HttpGetResult) :
  Aggregator.callback s.1 = publish uri →
  buffer_follows_trace s.2 → buffer_follows_trace (fetch_done s arrival).2.
Proof.
  intros Hcb Hinv. unfold fetch_done.
  destruct (get_metadata arrival.2) as [response|]; [|done].
  destruct s as [aggregator st]. simpl in Hcb, Hinv.
  unfold on_metadata.
  set (st1 := if negb (is_null response) then _ else st).
  assert (buffer_follows_trace st1) as Hinv1.
  { subst st1. destruct (is_null response); simpl; [done|].
    apply buffer_follows_trace_snoc; [done | | done].
    rewrite emitted_app. unfold DiagnosticsPipeline_run. simpl.
    rewrite app_nil_r. f_equal. apply Hinv. }
  assert (buffer_follows_trace
            {| diagnostics := diagnostics st1;
               trace := trace st1 ++ [Aggregate arrival.1] |}) as Hinv2.
  { apply buffer_follows_trace_snoc; [done | | done].
    rewrite emitted_app. simpl. rewrite app_nil_r. apply Hinv1. }
  unfold Aggregator.aggregate. simpl.
  match goal with |- context [Aggregator.is_ready ?a] =>
    destruct (Aggregator.is_ready a) end; simpl; [|done].
  rewrite Hcb. unfold publish at 1. simpl.
  apply (buffer_follows_trace_snoc
           {| diagnostics := diagnostics st1;
              trace := trace st1 ++ [Aggregate arrival.1] |}); [done | |].
  - rewrite emitted_app. simpl. rewrite app_nil_r. apply Hinv2.
  - intros u ds' [= _ <-]. apply Hinv2.
Qed.

Lemma manifest_run_buffer (uri : string) (deps : list IDependency)
    (arrivals : list (IDependency * HttpGetResult)) :
  buffer_follows_trace (manifest_run uri deps arrivals).2.
Proof.
  induction arrivals as [|arrival arrivals IH] using rev_ind.
  - split; [done|]. intros i u ds Hi. simpl in Hi. by rewrite lookup_nil in Hi.
  - rewrite manifest_run_snoc. apply (fetch_done_buffer uri); [|done].
    apply manifest_run_trace.
Qed.

(** A fetch that fails before any response arrives calls nothing. *)
Lemma fetch_failed_no_callback (s : Aggregator.t Run * Run) (dep : IDependency) :
  fetch_done s (dep, HttpFailed) = s.
Proof. reflexivity. Qed.

(** C8.  In a run in which the callback of each dependency is called at
    most once, whatever the order of the arrivals: a pipeline run for a
    dependency is followed at once by the call of [aggregate] for it, and
    so comes before the call of [aggregate] for that dependency; and what
    a publication carries is what the pipeline runs before it have
    appended. *)
Theorem pipeline_runs_before_aggregate (uri : string) (deps : list IDependency)
    (arrivals : list (IDependency * HttpGetResult)) :
  NoDup arrivals.*1 →
  let t := trace (manifest_run uri deps arrivals).2 in
  (∀ i dep response,
      t !! i = Some (PipelineRun dep response) → t !! S i = Some (Aggregate dep))
  ∧ (∀ i j dep response,
        t !! i = Some (PipelineRun dep response) →
        t !! j = Some (Aggregate dep) → i < j)
  ∧ (∀ i u ds, t !! i = Some (SendDiagnostics u ds) → ds = emitted (take i t)).
Proof.
  intros Hnodup t.
  destruct (manifest_run_trace uri deps arrivals) as (_ & _ & Hnext & Huniq).
  split; [done|]. split; [|apply manifest_run_buffer].
  intros i j dep response Hi Hj.
  apply Hnext in Hi. rewrite <- (Huniq Hnodup _ _ _ Hi Hj). lia.
Qed.

(** C5 (amended).  When the fetch of a dependency ends with a status other
    than 200 and 202, the callback is given [null]: the pipeline is not run
    and nothing is appended to the shared array, and the dependency is
    passed to [aggregate], which publishes if it was the last one. *)
Theorem failed_status_skips_pipeline_and_completes (uri : string)
    (m : gmap IDependency bool) (st : Run) (dep : IDependency)
    (statusCode : Z) (body : string) :
  statusCode ≠ 200%Z → statusCode ≠ 202%Z →
  let s' := fetch_done ({| Aggregator.mapping := m;
                           Aggregator.callback := publish uri |}, st)
                       (dep, HttpEnd statusCode body) in
  Aggregator.mapping s'.1 !! dep = Some true
  ∧ diagnostics s'.2 = diagnostics st
  ∧ (trace s'.2 = trace st ++ [Aggregate dep]
     ∨ trace s'.2 =
       trace st ++ [Aggregate dep; SendDiagnostics uri (diagnostics st)]).
Proof.
  intros H200 H202 s'. subst s'.
  assert (get_metadata (HttpEnd statusCode body) = Some JNull) as Hnull_given.
  { unfold get_metadata.
    by rewrite (proj2 (Z.eqb_neq _ _) H200), (proj2 (Z.eqb_neq _ _) H202). }
  unfold fetch_done. cbn [fst snd]. rewrite Hnull_given.
  destruct (on_metadata_effects uri dep JNull
              {| Aggregator.mapping := m; Aggregator.callback := publish uri |}
              st eq_refl)
    as (_ & Hmapping & effects & Htrace & _ & Hnull).
  destruct (Hnull eq_refl) as [Hdiag Heffects].
  split; [by rewrite Hmapping, lookup_insert_eq|]. split; [done|].
  rewrite Htrace. destruct Heffects as [-> | ->]; [by left | by right].
Qed.

(** C2, on the code.  For a manifest without dependencies the aggregator is
    ready as soon as it is built, but it is built without its callback
    being called, and no fetch is started whose callback could call
    [aggregate]: nothing is published. *)
Theorem zero_dependencies_nothing_published (uri : string) :
  Aggregator.is_ready (start_run uri []).1.1 = true
  ∧ (start_run uri []).2 = []
  ∧ trace (manifest_run uri [] []).2 = [].
Proof.
  split; [|done]. apply is_ready_true. intros k b. simpl.
  by rewrite lookup_empty.
Qed.
(** ** Further properties of the aggregator *)

Lemma aggregate_snd (W : Type) (dep : IDependency) (a : Aggregator.t W) (w : W) :
  (Aggregator.aggregate dep a w).2 =
  if Aggregator.is_ready (Aggregator.aggregate dep a w).1
  then Aggregator.callback a w else w.
Proof.
  unfold Aggregator.aggregate.
  destruct (Aggregator.is_ready
              {| Aggregator.mapping := <[dep := true]> (Aggregator.mapping a);
                 Aggregator.callback := Aggregator.callback a |}) eqn:Hready;
    simpl; by rewrite Hready.
Qed.

Lemma ready_after_calls (W : Type) (items calls : list IDependency)
    (cb : W → W) (w : W) :
  Aggregator.is_ready
    (Aggregator.aggregate_all calls (Aggregator.new items cb, w)).1 = true ↔
  ∀ k, k ∈ items → k ∈ calls.
Proof.
  rewrite is_ready_true. split.
  - intros Hready k Hk. destruct (decide (k ∈ calls)) as [|Hnotin]; [done|].
    specialize (Hready k false).
    rewrite aggregate_all_mapping, mapping_new in Hready.
    rewrite decide_False, decide_True in Hready by done.
    by specialize (Hready eq_refl).
  - intros Hcover k b. rewrite aggregate_all_mapping, mapping_new.
    destruct (decide (k ∈ calls)); [congruence|].
    destruct (decide (k ∈ items)) as [Hin|]; [|done].
    by apply Hcover in Hin.
Qed.

(** X1.  An aggregator is ready exactly when every key it was built over has
    been passed to [aggregate]: a new aggregator is ready if and only if it
    was built over no key, and keys it was not built over never stand in the
    way. *)
Theorem aggregator_ready_iff_all_passed (W : Type)
    (items calls : list IDependency) (cb : W → W) (w : W) :
  (Aggregator.is_ready
     (Aggregator.aggregate_all calls (Aggregator.new items cb, w)).1 = true ↔
   ∀ k, k ∈ items → k ∈ calls)
  ∧ (Aggregator.is_ready (Aggregator.new items cb) = true ↔ items = []).
Proof.
  split; [apply ready_after_calls|].
  rewrite (ready_after_calls W items [] cb w). split.
  - intros Hnone. destruct items as [|i items]; [done|].
    exfalso. apply (elem_of_nil i), Hnone. by left.
  - intros -> k Hk. by apply elem_of_nil in Hk.
Qed.

(** X2.  The flags depend only on which keys the aggregator was built over
    and which keys were passed to [aggregate]: neither the order, nor a key
    listed or passed more than once, nor the callback makes a difference. *)
Theorem aggregator_mapping_by_key_sets (W : Type)
    (items1 items2 calls1 calls2 : list IDependency) (cb1 cb2 : W → W) (w1 w2 : W) :
  (∀ k, k ∈ items1 ↔ k ∈ items2) → (∀ k, k ∈ calls1 ↔ k ∈ calls2) →
  Aggregator.mapping
    (Aggregator.aggregate_all calls1 (Aggregator.new items1 cb1, w1)).1 =
  Aggregator.mapping
    (Aggregator.aggregate_all calls2 (Aggregator.new items2 cb2, w2)).1.
Proof.
  intros Hitems Hcalls. apply map_eq. intros k.
  rewrite !aggregate_all_mapping, !mapping_new.
  destruct (decide (k ∈ calls1)) as [H1|H1], (decide (k ∈ calls2)) as [H2|H2];
    try done; try (by apply Hcalls in H1); try (by apply Hcalls in H2).
  destruct (decide (k ∈ items1)) as [I1|I1], (decide (k ∈ items2)) as [I2|I2];
    try done; [by apply Hitems in I1 | by apply Hitems in I2].
Qed.

(** X3.  The callback is called at an [aggregate] call exactly when, that
    call included, every key the aggregator was built over has been passed:
    each such call adds one invocation, every other call adds none. *)
Theorem invocations_step (items calls : list IDependency) (dep : IDependency) :
  invocations items (calls ++ [dep]) =
  (invocations items calls +
   if decide (Forall (λ k, k ∈ calls ++ [dep]) items) then 1 else 0)%nat.
Proof.
  unfold invocations.
  rewrite aggregate_all_snoc, aggregate_snd, <- aggregate_all_snoc.
  rewrite aggregate_all_callback. simpl.
  destruct (decide (Forall (λ k, k ∈ calls ++ [dep]) items)) as [Hall|Hnot].
  - rewrite (proj2 (ready_after_calls nat items (calls ++ [dep]) S 0%nat)); [lia|].
    by apply Forall_forall.
  - destruct (Aggregator.is_ready _) eqn:Hready; [|lia].
    exfalso. apply Hnot, Forall_forall.
    by apply (ready_after_calls nat items (calls ++ [dep]) S 0%nat).
Qed.

(** ** Further properties of the router *)

Section RouterComposition.
Context {W R : Type}.

Lemma run_loop_app (hs1 hs2 : list (AnalysisFiles.AnalysisFileHandler RegExp W R))
    (stream0 : EventStream) (uri file : string) (contents : option string) (w : W) :
  AnalysisFiles.run_loop RegExp_test (hs1 ++ hs2) stream0 uri file contents w =
  match (AnalysisFiles.run_loop RegExp_test hs1 stream0 uri file contents w).1 with
  | Some _ => AnalysisFiles.run_loop RegExp_test hs1 stream0 uri file contents w
  | None => AnalysisFiles.run_loop RegExp_test hs2 stream0 uri file contents w
  end.
Proof.
  induction hs1 as [|h hs1 IH]; simpl; [done|].
  destruct (bool_decide (AnalysisFiles.stream h = stream0)
            && RegExp_test (AnalysisFiles.matcher h) file); [|done].
  by destruct (AnalysisFiles.callback h uri file contents w).
Qed.

Lemma run_loop_other_stream (hs : list (AnalysisFiles.AnalysisFileHandler RegExp W R))
    (stream0 : EventStream) (uri file : string) (contents : option string) (w : W) :
  Forall (λ h, AnalysisFiles.stream h ≠ stream0) hs →
  AnalysisFiles.run_loop RegExp_test hs stream0 uri file contents w = (None, w).
Proof.
  induction 1 as [|h hs Hh _ IH]; simpl; [done|].
  by rewrite bool_decide_eq_false_2.
Qed.
End RouterComposition.

(** X4.  Registrations made later never take over from earlier ones: with
    more registrations added, [run] does what it did before whenever a handler
    was called before, and otherwise does what the added registrations alone
    would do. *)
Theorem run_with_later_registrations (W R : Type)
    (regs more : list (AnalysisFiles.Registration W R))
    (stream0 : EventStream) (uri file : string) (contents : option string)
    (w : W) :
  let run_over regs :=
    AnalysisFiles.run RegExp_test (AnalysisFiles.registered RegExp_new regs)
                      stream0 uri file contents w in
  run_over (regs ++ more) =
  match (run_over regs).1 with
  | Some _ => run_over regs
  | None => run_over more
  end.
Proof.
  intros run_over. subst run_over. unfold AnalysisFiles.run. simpl.
  rewrite !registered_handlers, map_app. apply run_loop_app.
Qed.

(** X5.  A handler is never called for a stream other than the one it was
    registered for: when no registration is for the stream asked for, [run]
    returns [undefined] and leaves the state alone, whatever the patterns and
    the file name. *)
Theorem run_other_stream (W R : Type)
    (regs : list (AnalysisFiles.Registration W R))
    (stream0 : EventStream) (uri file : string) (contents : option string)
    (w : W) :
  Forall (λ reg, AnalysisFiles.reg_stream reg ≠ stream0) regs →
  AnalysisFiles.run RegExp_test (AnalysisFiles.registered RegExp_new regs)
                    stream0 uri file contents w = (None, w).
Proof.
  intros Hother. unfold AnalysisFiles.run. rewrite registered_handlers.
  apply run_loop_other_stream. by apply Forall_fmap.
Qed.

(** ** Properties of the notifications *)

(** What [run] does on the handlers of the program. *)
Lemma files_run (fs : AnalysisFiles.t RegExp World unit) (stream0 : EventStream)
    (uri file : string) (contents : option string) (w : World) :
  AnalysisFiles.handlers fs = AnalysisFiles.handlers files →
  AnalysisFiles.run RegExp_test fs stream0 uri file contents w =
  if bool_decide (Diagnostics = stream0)
     && RegExp_test (RegExp_new "^package\.json$") file
  then (Some tt, (package_json_handler uri file contents w).2)
  else (None, w).
Proof.
  intros Hfs. unfold AnalysisFiles.run. rewrite Hfs. simpl.
  by destruct (bool_decide (Diagnostics = stream0)
               && RegExp_test (RegExp_new "^package\.json$") file).
Qed.

Lemma handle_file_event_world (uri : string) (contents : option string)
    (s : ServerState) :
  AnalysisFiles.handlers s.1 = AnalysisFiles.handlers files →
  (handle_file_event uri contents s).2 =
  if is_manifest uri
  then (package_json_handler uri (file_name_of uri) contents s.2).2
  else s.2.
Proof.
  intros Hfs. unfold handle_file_event, is_manifest, file_name_of. simpl.
  rewrite files_run by done. simpl.
  by destruct (RegExp_test _ _).
Qed.

Lemma deliver_handlers (s : ServerState) (e : Event) :
  AnalysisFiles.handlers (deliver s e).1 = AnalysisFiles.handlers s.1.
Proof. destruct e as [| ? [|? ?] | | | |]; reflexivity. Qed.

Lemma deliver_all_handlers (s : ServerState) (events : list Event) :
  AnalysisFiles.handlers (deliver_all s events).1 = AnalysisFiles.handlers s.1.
Proof.
  induction events as [|e events IH] using rev_ind; [done|].
  unfold deliver_all in *. rewrite foldl_app. simpl.
  by rewrite deliver_handlers.
Qed.

(** What the handler of the program does to the module state. *)
Lemma package_json_handler_world (uri file : string) (contents : option string)
    (w : World) :
  let w' := (package_json_handler uri file contents w).2 in
  stack_analysis_requests w' = stack_analysis_requests w
  ∧ stack_analysis_responses w' = stack_analysis_responses w
  ∧ timers w' = timers w
  ∧ collecting w' = collecting w ++ [(uri, contents)]
  ∧ http_calls w' =
    http_calls w ++
    (if decide (is_Some (stack_analysis_requests w !! uri)) then []
     else [Post (server_url config ++ "/stack-analyses/")%string
                {| form_manifest := contents;
                   form_filename := "package.json";
                   form_contentType := "application/json";
                   form_origin := "lsp" |} uri]).
Proof.
  unfold package_json_handler, get_stack_metadata. simpl.
  destruct (decide (is_Some (stack_analysis_requests w !! uri))) as [Hrec|Hidle].
  - rewrite bool_decide_eq_true_2 by done. by rewrite app_nil_r.
  - by rewrite bool_decide_eq_false_2.
Qed.

(** What the callback of a submission can do. *)
Lemma get_stack_metadata_callback_effect (file_uri : string)
    (result : RequestResult) (w : World) :
  state_of (get_stack_metadata_callback file_uri result w) = w
  ∨ ∃ statusCode body resp status id,
      result = RequestDone statusCode body
      ∧ JSON_parse body = Some resp
      ∧ get_prop resp "error" = Some None
      ∧ get_prop resp "status" = Some status
      ∧ loose_eq_word status "success" = Some true
      ∧ get_prop resp "id" = Some id
      ∧ get_stack_metadata_callback file_uri result w =
        Returned
          {| stack_analysis_requests :=
               <[file_uri := id]> (stack_analysis_requests w);
             stack_analysis_responses := stack_analysis_responses w;
             http_calls := http_calls w;
             timers := timers w ++ [poll_timer file_uri id];
             collecting := collecting w |}.
Proof.
  destruct result as [err|statusCode body]; [by left|]. simpl.
  destruct (JSON_parse body) as [resp|] eqn:Hparse; [|by left].
  destruct (get_prop resp "error") as [[error|]|] eqn:Herror;
    destruct (get_prop resp "status") as [status|] eqn:Hstatus;
    destruct (get_prop resp "id") as [id|] eqn:Hid; simpl; try by left.
  destruct (loose_eq_word status "success") as [[|]|] eqn:Hsuccess;
    [|by left..].
  right. by exists statusCode, body, resp, status, id.
Qed.

(** What the callback of a poll can do. *)
Lemma stack_collector_callback_effect (file_uri : string) (id : JsValue)
    (result : RequestResult) (w : World) :
  state_of (stack_collector_callback file_uri id result w) = w
  ∨ (∃ data, reports_success data
             ∧ state_of (stack_collector_callback file_uri id result w) =
               {| stack_analysis_requests := stack_analysis_requests w;
                  stack_analysis_responses :=
                    <[file_uri := data]> (stack_analysis_responses w);
                  http_calls := http_calls w;
                  timers := timers w;
                  collecting := collecting w |})
  ∨ state_of (stack_collector_callback file_uri id result w) =
    {| stack_analysis_requests := stack_analysis_requests w;
       stack_analysis_responses := stack_analysis_responses w;
       http_calls := http_calls w;
       timers := timers w ++ [poll_timer file_uri id];
       collecting := collecting w |}.
Proof.
  destruct result as [err|statusCode body]; [by left|]. simpl.
  destruct (JSON_parse body) as [data|] eqn:Hparse; [|by left].
  destruct (get_prop data "status") as [status|] eqn:Hstatus; [|by left].
  destruct (loose_eq_word status "success") as [[|]|] eqn:Hsuccess.
  - right. left. exists data. split; [by exists status | done].
  - destruct (statusCode =? 202)%Z; [by right; right | by left].
  - by left.
Qed.

(** One turn of the event loop, field by field. *)
Lemma deliver_effect (s : ServerState) (e : Event) :
  AnalysisFiles.handlers s.1 = AnalysisFiles.handlers files →
  let w := s.2 in
  let w' := (deliver s e).2 in
  (stack_analysis_requests w' = stack_analysis_requests w
   ∨ ∃ u id, stack_analysis_requests w' = <[u := id]> (stack_analysis_requests w))
  ∧ (stack_analysis_responses w' = stack_analysis_responses w
     ∨ ∃ u data, reports_success data
                 ∧ stack_analysis_responses w' =
                   <[u := data]> (stack_analysis_responses w))
  ∧ (∃ armed, timers w' = timers w ++ armed
              ∧ Forall (λ t, timeout t = 10000%Z) armed)
  ∧ (∃ made, http_calls w' = http_calls w ++ made
             ∧ ∀ uri,
                 (is_Some (stack_analysis_requests w !! uri) →
                  List.filter (submits uri) made = [])
                 ∧ (length (List.filter (submits uri) made)
                    ≤ (if opens_or_saves uri e then 1 else 0))%nat).
Proof.
  intros Hfs w w'. subst w w'.
  assert (∀ uri' contents,
             let w' := (handle_file_event uri' contents s).2 in
             stack_analysis_requests w' = stack_analysis_requests s.2
             ∧ stack_analysis_responses w' = stack_analysis_responses s.2
             ∧ timers w' = timers s.2
             ∧ ∃ made, http_calls w' = http_calls s.2 ++ made
                ∧ ∀ uri,
                    (is_Some (stack_analysis_requests s.2 !! uri) →
                     List.filter (submits uri) made = [])
                    ∧ (length (List.filter (submits uri) made)
                       ≤ (if String.eqb uri' uri then 1 else 0))%nat) as Hfile.
  { intros uri' contents. cbv zeta. rewrite handle_file_event_world by done.
    destruct (is_manifest uri').
    - destruct (package_json_handler_world uri' (file_name_of uri') contents s.2)
        as (-> & -> & -> & _ & ->).
      split; [done|]. split; [done|]. split; [done|]. eexists. split; [done|].
      intros uri.
      destruct (decide (is_Some (stack_analysis_requests s.2 !! uri')))
        as [Hrec|Hidle]; simpl; [split; [done | lia]|].
      destruct (String.eqb uri' uri) eqn:Hsame; simpl; [|split; [done | lia]].
      apply String.eqb_eq in Hsame as ->. split; [done | lia].
    - split; [done|]. split; [done|]. split; [done|]. exists [].
      split; [by rewrite app_nil_r|]. intros uri. simpl. split; [done | lia]. }
  destruct e as [uri' text | uri' changes | uri' | file_uri result
                 | file_uri id result | t]; cbn [deliver fst snd opens_or_saves].
  - unfold onDidOpenTextDocument.
    destruct (Hfile uri' (Some text)) as (-> & -> & -> & made & -> & Hmade).
    split; [by left|]. split; [by left|]. split.
    + exists []. by rewrite app_nil_r.
    + by exists made.
  - assert ((state_of (onDidChangeTextDocument uri' changes s)).2 = s.2) as ->
      by (by destruct changes).
    split; [by left|]. split; [by left|]. split.
    + exists []. by rewrite app_nil_r.
    + exists []. split; [by rewrite app_nil_r|]. intros uri. simpl. split; [done|lia].
  - unfold onDidSaveTextDocument.
    destruct (Hfile uri' (AnalysisFiles.file_data s.1 !! uri'))
      as (-> & -> & -> & made & -> & Hmade).
    split; [by left|]. split; [by left|]. split.
    + exists []. by rewrite app_nil_r.
    + by exists made.
  - destruct (get_stack_metadata_callback_effect file_uri result s.2)
      as [-> | (? & ? & ? & ? & id & _ & _ & _ & _ & _ & _ & ->)]; simpl.
    + split; [by left|]. split; [by left|]. split.
      * exists []. by rewrite app_nil_r.
      * exists []. split; [by rewrite app_nil_r|]. intros uri. simpl. split; [done|lia].
    + split; [right; by exists file_uri, id|]. split; [by left|]. split.
      * eexists. split; [done|]. by apply Forall_singleton.
      * exists []. split; [by rewrite app_nil_r|]. intros uri. simpl. split; [done|lia].
  - destruct (stack_collector_callback_effect file_uri id result s.2)
      as [-> | [(data & Hdata & ->) | ->]]; simpl.
    + split; [by left|]. split; [by left|]. split.
      * exists []. by rewrite app_nil_r.
      * exists []. split; [by rewrite app_nil_r|]. intros uri. simpl. split; [done|lia].
    + split; [by left|]. split; [right; by exists file_uri, data|]. split.
      * exists []. by rewrite app_nil_r.
      * exists []. split; [by rewrite app_nil_r|]. intros uri. simpl. split; [done|lia].
    + split; [by left|]. split; [by left|]. split.
      * eexists. split; [done|]. by apply Forall_singleton.
      * exists []. split; [by rewrite app_nil_r|]. intros uri. simpl. split; [done|lia].
  - unfold fire, stack_collector.
    destruct (template (timer_id t)) as [text|]; cbn [state_of].
    + split; [by left|]. split; [by left|]. split.
      * exists []. by rewrite app_nil_r.
      * eexists. split; [done|]. intros uri. simpl. split; [done|lia].
    + split; [by left|]. split; [by left|]. split.
      * exists []. by rewrite app_nil_r.
      * exists []. split; [by rewrite app_nil_r|]. intros uri. simpl.
        split; [done|lia].
Qed.

Lemma deliver_all_snoc (s : ServerState) (events : list Event) (e : Event) :
  deliver_all s (events ++ [e]) = deliver (deliver_all s events) e.
Proof. unfold deliver_all. by rewrite foldl_app. Qed.

(** X6.  An open or a save of a document whose file name the registered
    pattern does not match only caches the contents: the module state is
    left alone, the cache holds the contents under the URI, and the cached
    contents of the other documents are as they were. *)
Theorem file_event_on_other_file (uri : string) (contents : option string)
    (s : ServerState) :
  AnalysisFiles.handlers s.1 = AnalysisFiles.handlers files →
  is_manifest uri = false →
  (handle_file_event uri contents s).2 = s.2
  ∧ ∀ uri', AnalysisFiles.file_data (handle_file_event uri contents s).1 !! uri' =
            if decide (uri' = uri) then contents
            else AnalysisFiles.file_data s.1 !! uri'.
Proof.
  intros Hfs Hother. split.
  - by rewrite handle_file_event_world, Hother.
  - intros uri'. unfold handle_file_event. simpl.
    destruct (decide (uri' = uri)) as [->|Hne], contents as [text|]; simpl.
    + by rewrite lookup_insert_eq.
    + by rewrite lookup_delete_eq.
    + by rewrite lookup_insert_ne.
    + by rewrite lookup_delete_ne.
Qed.

(** X7.  An open or a save of a manifest hands the manifest to the collector
    every time, and posts it for stack analysis if and only if no request id
    is recorded for the document; the post carries the contents, the file
    name [package.json] and the origin [lsp].  Nothing else changes. *)
Theorem file_event_on_manifest (uri text : string) (s : ServerState) :
  AnalysisFiles.handlers s.1 = AnalysisFiles.handlers files →
  is_manifest uri = true →
  let w' := (handle_file_event uri (Some text) s).2 in
  collecting w' = collecting s.2 ++ [(uri, Some text)]
  ∧ http_calls w' =
    http_calls s.2 ++
    (if decide (is_Some (stack_analysis_requests s.2 !! uri)) then []
     else [Post (server_url config ++ "/stack-analyses/")%string
                {| form_manifest := Some text;
                   form_filename := "package.json";
                   form_contentType := "application/json";
                   form_origin := "lsp" |} uri])
  ∧ stack_analysis_requests w' = stack_analysis_requests s.2
  ∧ stack_analysis_responses w' = stack_analysis_responses s.2
  ∧ timers w' = timers s.2.
Proof.
  intros Hfs Hmanifest w'. subst w'.
  rewrite handle_file_event_world, Hmanifest by done.
  destruct (package_json_handler_world uri (file_name_of uri) (Some text) s.2)
    as (Hreq & Hresp & Htimers & Hcollecting & Hcalls).
  by rewrite Hreq, Hresp, Htimers, Hcollecting, Hcalls.
Qed.

(** X8.  A change followed by a save of the same document does what opening
    the document with the text of the first change does: the save reads back
    the text that the change cached. *)
Theorem save_after_change_is_open (uri text : string) (more : list string)
    (s : ServerState) :
  onDidSaveTextDocument uri
    (state_of (onDidChangeTextDocument uri (text :: more) s)) =
  onDidOpenTextDocument uri text s.
Proof.
  unfold onDidSaveTextDocument, onDidOpenTextDocument, onDidChangeTextDocument.
  cbn [state_of]. unfold handle_file_event. cbn [fst snd].
  assert (AnalysisFiles.file_data (AnalysisFiles.set_file_data uri (Some text) s.1)
            !! uri = Some text) as -> by (simpl; by rewrite lookup_insert_eq).
  assert (AnalysisFiles.set_file_data uri (Some text)
            (AnalysisFiles.set_file_data uri (Some text) s.1) =
          AnalysisFiles.set_file_data uri (Some text) s.1) as ->; [|done].
  unfold AnalysisFiles.set_file_data. simpl. by rewrite insert_insert_eq.
Qed.

(** X9.  After any sequence of notifications, answers and timers,
    [handle_code_lens_event] returns [undefined] and changes nothing: no turn
    of the event loop adds a handler. *)
Theorem code_lens_undefined_in_every_state (events : list Event) (uri : string) :
  let s := deliver_all (files, initial_world) events in
  handle_code_lens_event uri s = (None, s).
Proof.
  intros s. unfold handle_code_lens_event.
  rewrite files_run by (subst s; apply deliver_all_handlers).
  rewrite bool_decide_eq_false_2 by discriminate. simpl. by destruct s.
Qed.

(** ** Properties of the event loop *)

(** X10.  Once a request id is recorded for a document, no sequence of
    notifications, answers and timers makes another submission for it: the
    entry is never removed, not even when the poll loop has ended. *)
Theorem recorded_document_never_resubmitted (s : ServerState)
    (events : list Event) (uri : string) :
  AnalysisFiles.handlers s.1 = AnalysisFiles.handlers files →
  is_Some (stack_analysis_requests s.2 !! uri) →
  submissions uri (deliver_all s events).2 = submissions uri s.2
  ∧ is_Some (stack_analysis_requests (deliver_all s events).2 !! uri).
Proof.
  intros Hfs Hrec. induction events as [|e events [IHsub IHrec]] using rev_ind;
    [done|].
  rewrite deliver_all_snoc.
  assert (AnalysisFiles.handlers (deliver_all s events).1 =
          AnalysisFiles.handlers files) as Hfs'
    by (by rewrite deliver_all_handlers).
  destruct (deliver_effect _ e Hfs') as (Hreq & _ & _ & made & Hmade & Hsub).
  split.
  - unfold submissions in *. rewrite Hmade, List.filter_app.
    rewrite (proj1 (Hsub uri) IHrec), app_nil_r. exact IHsub.
  - destruct Hreq as [-> | (u & id & ->)]; [done|].
    destruct (decide (u = uri)) as [->|Hne].
    + rewrite lookup_insert_eq. by eexists.
    + by rewrite lookup_insert_ne.
Qed.

(** X11.  Every poll result the module ever stores reports success: whatever
    the event loop delivers, a body is stored only by the poll callback and
    only when its [status] equals ['success']. *)
Theorem stored_results_report_success (events : list Event)
    (uri : string) (data : Json) :
  stack_analysis_responses (deliver_all (files, initial_world) events).2 !! uri
    = Some data →
  reports_success data.
Proof.
  revert uri data. induction events as [|e events IH] using rev_ind;
    intros uri data.
  { simpl. by rewrite lookup_empty. }
  rewrite deliver_all_snoc.
  assert (AnalysisFiles.handlers (deliver_all (files, initial_world) events).1 =
          AnalysisFiles.handlers files) as Hfs
    by (by rewrite deliver_all_handlers).
  destruct (deliver_effect _ e Hfs) as (_ & [-> | (u & d & Hd & ->)] & _);
    [apply IH|].
  destruct (decide (u = uri)) as [->|Hne].
  - rewrite lookup_insert_eq. by intros [= <-].
  - rewrite lookup_insert_ne by done. apply IH.
Qed.

(** X12.  The module never submits a manifest on its own: the submissions
    made for a document are at most as many as the opens and saves of that
    document. *)
Theorem submissions_bounded_by_file_events (events : list Event) (uri : string) :
  (length (submissions uri (deliver_all (files, initial_world) events).2)
   ≤ length (List.filter (opens_or_saves uri) events))%nat.
Proof.
  induction events as [|e events IH] using rev_ind; [done|].
  rewrite deliver_all_snoc.
  assert (AnalysisFiles.handlers (deliver_all (files, initial_world) events).1 =
          AnalysisFiles.handlers files) as Hfs
    by (by rewrite deliver_all_handlers).
  destruct (deliver_effect _ e Hfs) as (_ & _ & _ & made & Hmade & Hsub).
  unfold submissions in *. rewrite Hmade, !List.filter_app, !length_app.
  destruct (Hsub uri) as [_ Hle]. simpl.
  destruct (opens_or_saves uri e); simpl in *; lia.
Qed.

(** X13.  Every timer the module arms is a timer of 10 000 ms. *)
Theorem timers_all_ten_seconds (events : list Event) :
  Forall (λ t, timeout t = 10000%Z)
         (timers (deliver_all (files, initial_world) events).2).
Proof.
  induction events as [|e events IH] using rev_ind; [by constructor|].
  rewrite deliver_all_snoc.
  assert (AnalysisFiles.handlers (deliver_all (files, initial_world) events).1 =
          AnalysisFiles.handlers files) as Hfs
    by (by rewrite deliver_all_handlers).
  destruct (deliver_effect _ e Hfs) as (_ & _ & (armed & -> & Harmed) & _).
  by apply Forall_app.
Qed.

Lemma poll_in_progress_effect (file_uri : string) (id : JsValue)
    (result : RequestResult) (w : World) :
  poll_in_progress result →
  stack_collector_callback file_uri id result w =
  Returned {| stack_analysis_requests := stack_analysis_requests w;
              stack_analysis_responses := stack_analysis_responses w;
              http_calls := http_calls w;
              timers := timers w ++ [poll_timer file_uri id];
              collecting := collecting w |}.
Proof.
  intros (body & data & status & -> & Hparse & Hstatus & Hsuccess).
  simpl. by rewrite Hparse, Hstatus, Hsuccess.
Qed.

Lemma poll_success_effect (file_uri : string) (id : JsValue)
    (result : RequestResult) (data : Json) (w : World) :
  poll_success result data →
  stack_collector_callback file_uri id result w =
  Returned {| stack_analysis_requests := stack_analysis_requests w;
              stack_analysis_responses :=
                <[file_uri := data]> (stack_analysis_responses w);
              http_calls := http_calls w;
              timers := timers w;
              collecting := collecting w |}.
Proof.
  intros (statusCode & body & status & -> & Hparse & Hstatus & Hsuccess).
  simpl. by rewrite Hparse, Hstatus, Hsuccess.
Qed.

Lemma poll_rounds_snoc (file_uri : string) (id : JsValue)
    (results : list RequestResult) (result : RequestResult) :
  poll_rounds file_uri id (results ++ [result]) =
  poll_rounds file_uri id results ++
  [TimerDue (poll_timer file_uri id); GetAnswered file_uri id result].
Proof. unfold poll_rounds. by rewrite flat_map_app. Qed.

Lemma poll_rounds_in_progress (s : ServerState) (file_uri : string) (id : JsValue)
    (text : string) (results : list RequestResult) :
  template id = Some text →
  Forall poll_in_progress results →
  let s' := deliver_all s (poll_rounds file_uri id results) in
  let call := Get (server_url config ++ "/stack-analyses/" ++ text)%string
                  file_uri id in
  http_calls s'.2 = http_calls s.2 ++ replicate (length results) call
  ∧ timers s'.2 = timers s.2 ++ replicate (length results) (poll_timer file_uri id)
  ∧ stack_analysis_responses s'.2 = stack_analysis_responses s.2
  ∧ stack_analysis_requests s'.2 = stack_analysis_requests s.2.
Proof.
  intros Htext.
  induction results as [|result results IH] using rev_ind; intros Hall.
  { simpl. by rewrite !app_nil_r. }
  apply Forall_app in Hall as [Hall Hlast].
  apply (proj1 (Forall_singleton _ _)) in Hlast.
  destruct (IH Hall) as (Hcalls & Htimers & Hresp & Hreq).
  cbv zeta. rewrite poll_rounds_snoc.
  unfold deliver_all in *. rewrite foldl_app. cbn [foldl deliver fst snd].
  unfold fire, stack_collector, poll_timer in *. cbn [timer_id timer_file_uri].
  rewrite Htext. cbn [state_of].
  rewrite (poll_in_progress_effect _ _ _ _ Hlast). cbn [state_of].
  simpl.
  rewrite Hcalls, Htimers, Hresp, Hreq, length_app. simpl.
  rewrite Nat.add_1_r, !replicate_S_end, !app_assoc. done.
Qed.

(** X14.  The poll loop of a request whose id converts to a string, over any
    number of in-progress answers followed by a success: each answer in
    progress arms one timer and each timer makes one [request.get] of the
    same URL; the success stores its body under the document URI and arms no
    timer, so the requests made are one more than the timers armed. *)
Theorem poll_loop_until_success (s : ServerState) (file_uri : string)
    (id : JsValue) (text : string) (results : list RequestResult)
    (final : RequestResult) (data : Json) :
  template id = Some text →
  Forall poll_in_progress results → poll_success final data →
  let s' := deliver_all s (poll_rounds file_uri id (results ++ [final])) in
  let call := Get (server_url config ++ "/stack-analyses/" ++ text)%string
                  file_uri id in
  http_calls s'.2 = http_calls s.2 ++ replicate (S (length results)) call
  ∧ timers s'.2 = timers s.2 ++ replicate (length results) (poll_timer file_uri id)
  ∧ stack_analysis_responses s'.2 =
    <[file_uri := data]> (stack_analysis_responses s.2)
  ∧ stack_analysis_requests s'.2 = stack_analysis_requests s.2.
Proof.
  intros Htext Hall Hfinal.
  destruct (poll_rounds_in_progress s file_uri id text results Htext Hall)
    as (Hcalls & Htimers & Hresp & Hreq).
  cbv zeta. rewrite poll_rounds_snoc.
  unfold deliver_all in *. rewrite foldl_app. cbn [foldl deliver fst snd].
  unfold fire, stack_collector, poll_timer in *. cbn [timer_id timer_file_uri].
  rewrite Htext. cbn [state_of].
  rewrite (poll_success_effect _ _ _ _ _ Hfinal). cbn [state_of].
  simpl.
  rewrite Hcalls, Htimers, Hresp, Hreq.
  split; [|done]. by rewrite <- app_assoc, <- replicate_S_end.
Qed.

(** A poll whose id cannot be converted to a string is never made: the timer
    fires, building the query throws, and the state is left as it was. *)
Lemma fire_unconvertible_id (t : Timer) (w : World) :
  template (timer_id t) = None → fire t w = Threw "TypeError" w.
Proof. intros Hid. unfold fire, stack_collector. by rewrite Hid. Qed.

(** X15.  The answer to a submission is acted upon only if its body parses,
    has no [error] property and has [status] ['success']: on an error, on a
    body with an [error] property, on any other status or on a status whose
    comparison throws, the state is left as it was, so no request id is
    recorded and no poll is scheduled. *)
Theorem unsuccessful_submission_leaves_no_trace (file_uri : string)
    (result : RequestResult) (w : World) :
  (∀ statusCode body resp status,
      result = RequestDone statusCode body →
      JSON_parse body = Some resp →
      get_prop resp "error" = Some None →
      get_prop resp "status" = Some status →
      loose_eq_word status "success" ≠ Some true) →
  state_of (get_stack_metadata_callback file_uri result w) = w.
Proof.
  intros Hfailed.
  destruct (get_stack_metadata_callback_effect file_uri result w)
    as [Hsame | (statusCode & body & resp & status & id & Hresult & Hparse
                 & Herror & Hstatus & Hsuccess & _)]; [done|].
  by destruct (Hfailed _ _ _ _ Hresult Hparse Herror Hstatus).
Qed.

(** ** Further properties of a manifest-analysis run *)

(** One arrival, exactly. *)
Lemma fetch_done_step (uri : string) (s : Aggregator.t Run * Run)
    (a : IDependency * HttpGetResult) :
  Aggregator.callback s.1 = publish uri →
  let s' := fetch_done s a in
  Aggregator.callback s'.1 = publish uri
  ∧ match get_metadata a.2 with
    | None => s' = s
    | Some response =>
        Aggregator.mapping s'.1 = <[a.1 := true]> (Aggregator.mapping s.1)
        ∧ diagnostics s'.2 =
          diagnostics s.2 ++
          (if is_null response then []
           else DiagnosticsPipeline_run DiagnosticsEngines a.1 config response [])
        ∧ trace s'.2 =
          trace s.2 ++
          (if is_null response then [] else [PipelineRun a.1 response]) ++
          [Aggregate a.1] ++
          (if Aggregator.is_ready s'.1
           then [SendDiagnostics uri (diagnostics s'.2)] else [])
    end.
Proof.
  intros Hcb. unfold fetch_done.
  destruct (get_metadata a.2) as [response|]; [|done].
  destruct s as [aggregator st]. simpl in Hcb.
  unfold on_metadata, Aggregator.aggregate. cbn [fst snd].
  destruct (is_null response); cbn [negb];
    match goal with |- context [Aggregator.is_ready ?x] =>
      destruct (Aggregator.is_ready x) eqn:Hready end;
    cbn [fst snd Aggregator.callback Aggregator.mapping];
    rewrite ?Hready, ?Hcb; simpl; rewrite ?app_nil_r, <- ?app_assoc; done.
Qed.

Lemma answered_snoc (arrivals : list (IDependency * HttpGetResult))
    (a : IDependency * HttpGetResult) :
  answered (arrivals ++ [a]) =
  answered arrivals ++
  match get_metadata a.2 with
  | Some _ => [a.1]
  | None => []
  end.
Proof.
  unfold answered. rewrite filter_app, fmap_app. f_equal.
  rewrite filter_cons, filter_nil.
  destruct (get_metadata a.2) as [response|].
  - rewrite decide_True; [done | by eexists].
  - rewrite decide_False; [done | by intros [? ?]].
Qed.

(** The flags of a run: [true] for the dependencies whose callback has been
    called, [false] for the other dependencies of the manifest. *)
Lemma manifest_run_mapping (uri : string) (deps : list IDependency)
    (arrivals : list (IDependency * HttpGetResult)) (k : IDependency) :
  Aggregator.mapping (manifest_run uri deps arrivals).1 !! k =
  if decide (k ∈ answered arrivals) then Some true
  else if decide (k ∈ deps) then Some false else None.
Proof.
  induction arrivals as [|a arrivals IH] using rev_ind.
  - change (manifest_run uri deps []).1 with (Aggregator.new deps (publish uri)).
    rewrite mapping_new. change (answered []) with (@nil IDependency).
    destruct (decide (k ∈ [])) as [Hin|_]; [by apply elem_of_nil in Hin | done].
  - rewrite manifest_run_snoc, answered_snoc.
    destruct (fetch_done_step uri (manifest_run uri deps arrivals) a)
      as [_ Hstep]; [apply manifest_run_trace|].
    destruct (get_metadata a.2) as [response|].
    + destruct Hstep as (-> & _). rewrite lookup_insert, IH.
      destruct (decide (a.1 = k)) as [->|Hne].
      * rewrite decide_True; [done|]. apply elem_of_app. right. by left.
      * destruct (decide (k ∈ answered arrivals)) as [Hin|Hnotin].
        -- rewrite decide_True; [done|]. apply elem_of_app. by left.
        -- destruct (decide (k ∈ answered arrivals ++ [a.1])) as [Hk|_]; [|done].
           exfalso. apply elem_of_app in Hk as [?|Hk]; [done|].
           apply list_elem_of_singleton in Hk. congruence.
    + rewrite Hstep, app_nil_r. apply IH.
Qed.

Lemma manifest_run_diagnostics (uri : string) (deps : list IDependency)
    (arrivals : list (IDependency * HttpGetResult)) :
  diagnostics (manifest_run uri deps arrivals).2 = findings arrivals.
Proof.
  induction arrivals as [|a arrivals IH] using rev_ind; [done|].
  rewrite manifest_run_snoc. unfold findings in *. rewrite flat_map_app. simpl.
  destruct (fetch_done_step uri (manifest_run uri deps arrivals) a)
    as [_ Hstep]; [apply manifest_run_trace|].
  destruct (get_metadata a.2) as [response|].
  - destruct Hstep as (_ & -> & _). by rewrite IH, app_nil_r.
  - by rewrite Hstep, IH, !app_nil_r.
Qed.

(** While the callback of some dependency of the manifest has not been
    called, nothing is published. *)
Lemma pending_no_publication (uri : string) (deps : list IDependency)
    (arrivals : list (IDependency * HttpGetResult)) (dep : IDependency) :
  dep ∈ deps → dep ∉ answered arrivals →
  ∀ u ds, SendDiagnostics u ds ∉ trace (manifest_run uri deps arrivals).2.
Proof.
  intros Hdep. induction arrivals as [|a arrivals IH] using rev_ind;
    intros Hpending u ds.
  { simpl. apply not_elem_of_nil. }
  rewrite answered_snoc in Hpending.
  assert (dep ∉ answered arrivals) as Hbefore.
  { intros ?. apply Hpending, elem_of_app. by left. }
  rewrite manifest_run_snoc.
  destruct (fetch_done_step uri (manifest_run uri deps arrivals) a)
    as [_ Hstep]; [apply manifest_run_trace|].
  destruct (get_metadata a.2) as [response|]; [|rewrite Hstep; by apply IH].
  destruct Hstep as (Hmapping & _ & ->).
  assert (a.1 ≠ dep) as Hne.
  { intros <-. apply Hpending, elem_of_app. right. by left. }
  rewrite (is_ready_false _ dep).
  - rewrite app_nil_r. intros [Hin|Hin]%elem_of_app; [by apply (IH Hbefore u ds)|].
    destruct (is_null response).
    + apply list_elem_of_singleton in Hin. discriminate.
    + apply elem_of_cons in Hin as [Hin|Hin]; [discriminate|].
      apply list_elem_of_singleton in Hin. discriminate.
  - rewrite Hmapping, lookup_insert_ne by done.
    rewrite manifest_run_mapping.
    by rewrite decide_False, decide_True.
Qed.

Lemma get_metadata_not_null (result : HttpGetResult) (response : Json) :
  get_metadata result = Some response → is_null response = false →
  ∃ statusCode body,
    result = HttpEnd statusCode body
    ∧ (statusCode = 200 ∨ statusCode = 202)%Z
    ∧ JSON_parse body = Some response.
Proof.
  destruct result as [statusCode body|]; [|done]. simpl.
  destruct (statusCode =? 200)%Z eqn:H200; simpl.
  - intros Hparse _. exists statusCode, body.
    apply Z.eqb_eq in H200. by split_and!; [|left|].
  - destruct (statusCode =? 202)%Z eqn:H202.
    + intros Hparse _. exists statusCode, body.
      apply Z.eqb_eq in H202. by split_and!; [|right|].
    + by intros [= <-].
Qed.

(** X16.  The pipeline is run only on what the analysis service answered:
    every pipeline run of a run is for a dependency whose fetch ended with
    status 200 or 202, on the value its body parses to, and that value is not
    [null]. *)
Theorem pipeline_runs_on_answers_only (uri : string) (deps : list IDependency)
    (arrivals : list (IDependency * HttpGetResult))
    (i : nat) (dep : IDependency) (response : Json) :
  trace (manifest_run uri deps arrivals).2 !! i = Some (PipelineRun dep response) →
  is_null response = false
  ∧ ∃ statusCode body,
      (dep, HttpEnd statusCode body) ∈ arrivals
      ∧ (statusCode = 200 ∨ statusCode = 202)%Z
      ∧ JSON_parse body = Some response.
Proof.
  revert i. induction arrivals as [|a arrivals IH] using rev_ind; intros i.
  { simpl. by rewrite lookup_nil. }
  rewrite manifest_run_snoc.
  assert (∀ i, trace (manifest_run uri deps arrivals).2 !! i =
               Some (PipelineRun dep response) →
               is_null response = false
               ∧ ∃ statusCode body,
                   (dep, HttpEnd statusCode body) ∈ arrivals ++ [a]
                   ∧ (statusCode = 200 ∨ statusCode = 202)%Z
                   ∧ JSON_parse body = Some response) as Hold.
  { intros j Hj. destruct (IH j Hj) as (Hnull & statusCode & body & Hin & Hrest).
    split; [done|]. exists statusCode, body. split; [|done].
    apply elem_of_app. by left. }
  destruct (fetch_done_step uri (manifest_run uri deps arrivals) a)
    as [_ Hstep]; [apply manifest_run_trace|].
  destruct (get_metadata a.2) as [given|] eqn:Hgiven;
    [|rewrite Hstep; apply Hold].
  destruct Hstep as (_ & _ & ->).
  intros [Hi | [_ Hi]]%lookup_app_Some; [by apply (Hold i)|].
  apply list_elem_of_lookup_2 in Hi.
  destruct (is_null given) eqn:Hnull.
  - exfalso. simpl in Hi. apply elem_of_cons in Hi as [Hi|Hi]; [discriminate|].
    destruct (Aggregator.is_ready _).
    + apply list_elem_of_singleton in Hi. discriminate.
    + by apply elem_of_nil in Hi.
  - simpl in Hi. apply elem_of_cons in Hi as [Hi|Hi].
    + injection Hi as -> ->. split; [done|].
      destruct (get_metadata_not_null _ _ Hgiven Hnull)
        as (statusCode & body & Hresult & Hcode & Hparse).
      exists statusCode, body. split; [|done].
      apply elem_of_app. right. apply list_elem_of_singleton.
      destruct a as [d r]. simpl in *. by subst.
    + exfalso. apply elem_of_cons in Hi as [Hi|Hi]; [discriminate|].
      destruct (Aggregator.is_ready _).
      * apply list_elem_of_singleton in Hi. discriminate.
      * by apply elem_of_nil in Hi.
Qed.

(** X17.  When the manifest has dependencies and the callback of each is
    called exactly once, in any order, the run publishes exactly once, as its
    last effect, and what it publishes is what the engines reported for the
    arrivals, in the order of the arrivals. *)
Theorem run_publishes_once_at_the_end (uri : string) (deps : list IDependency)
    (arrivals : list (IDependency * HttpGetResult)) :
  deps ≠ [] →
  NoDup arrivals.*1 →
  (∀ k, k ∈ arrivals.*1 ↔ k ∈ deps) →
  Forall (λ a, is_Some (get_metadata a.2)) arrivals →
  ∃ before,
    trace (manifest_run uri deps arrivals).2 =
    before ++ [SendDiagnostics uri (findings arrivals)]
    ∧ ∀ u ds, SendDiagnostics u ds ∉ before.
Proof.
  intros Hdeps Hnodup Hcover Hall.
  destruct arrivals as [|a arrivals _] using rev_ind.
  { destruct deps as [|d deps]; [done|].
    exfalso. apply (elem_of_nil d), Hcover. by left. }
  rewrite fmap_app in Hnodup, Hcover. simpl in Hnodup, Hcover.
  apply NoDup_app in Hnodup as (_ & Hfresh & _).
  apply Forall_app in Hall as [Hall Hlast].
  apply (proj1 (Forall_singleton _ _)) in Hlast.
  assert (answered arrivals = arrivals.*1) as Hanswered.
  { unfold answered. f_equal. clear -Hall.
    induction Hall as [|x l Hx _ IH]; [done|].
    by rewrite filter_cons, decide_True, IH. }
  assert (a.1 ∉ arrivals.*1) as Hlast_fresh.
  { intros Hin. apply (Hfresh _ Hin). by left. }
  assert (a.1 ∈ deps) as Hlast_dep.
  { apply Hcover, elem_of_app. right. by left. }
  assert (∀ u ds, SendDiagnostics u ds ∉ trace (manifest_run uri deps arrivals).2)
    as Hsilent.
  { apply (pending_no_publication uri deps arrivals a.1 Hlast_dep).
    by rewrite Hanswered. }
  rewrite <- (manifest_run_diagnostics uri deps (arrivals ++ [a])).
  rewrite manifest_run_snoc.
  destruct (fetch_done_step uri (manifest_run uri deps arrivals) a)
    as [_ Hstep]; [apply manifest_run_trace|].
  destruct Hlast as [response Hgiven]. rewrite Hgiven in Hstep.
  destruct Hstep as (Hmapping & _ & ->).
  assert (Aggregator.is_ready (fetch_done (manifest_run uri deps arrivals) a).1
          = true) as ->.
  { apply is_ready_true. intros k b. rewrite Hmapping, lookup_insert.
    destruct (decide (a.1 = k)) as [Heq|Hne]; [congruence|].
    rewrite manifest_run_mapping, Hanswered.
    destruct (decide (k ∈ arrivals.*1)) as [|Hnotin]; [congruence|].
    destruct (decide (k ∈ deps)) as [Hk|]; [|done].
    apply Hcover, elem_of_app in Hk as [?|Hk]; [done|].
    apply list_elem_of_singleton in Hk. congruence. }
  eexists. split; [by rewrite !app_assoc|].
  intros u ds [[Hin|Hin]%elem_of_app|Hin]%elem_of_app.
  - by apply (Hsilent u ds).
  - destruct (is_null response); [by apply elem_of_nil in Hin|].
    apply list_elem_of_singleton in Hin. discriminate.
  - apply list_elem_of_singleton in Hin. discriminate.
Qed.

(** X18.  A run never publishes while a dependency of the manifest is
    outstanding: if for some dependency the callback is never called, because
    its request failed or because the body of a 200 or 202 answer does not
    parse, the aggregator never gets ready and nothing is published, whatever
    the other fetches do. *)
Theorem run_stalls_on_unanswered_dependency (uri : string)
    (deps : list IDependency) (arrivals : list (IDependency * HttpGetResult))
    (dep : IDependency) :
  dep ∈ deps → dep ∉ answered arrivals →
  Aggregator.is_ready (manifest_run uri deps arrivals).1 = false
  ∧ ∀ u ds, SendDiagnostics u ds ∉ trace (manifest_run uri deps arrivals).2.
Proof.
  intros Hdep Hpending. split; [|by apply (pending_no_publication uri deps arrivals dep)].
  apply (is_ready_false _ dep). rewrite manifest_run_mapping.
  by rewrite decide_False, decide_True.
Qed.

End Server.

(** ** The statements on the sample data *)

Local Open Scope list_scope.

(** A run on the sample manifest: every engine is [Sample.quiet]. *)
Local Abbreviation sample_run :=
  (manifest_run Sample.parse Sample.quiet Sample.quiet Sample.quiet Sample.quiet
                Sample.config Sample.uri).

(** C1, as stated, fails: every key has been passed to [aggregate], one of
    them twice, and the callback has been called twice. *)
Lemma aggregator_callback_twice :
  (∀ k, k ∈ [Sample.left_pad; Sample.lodash] →
        k ∈ [Sample.lodash; Sample.left_pad; Sample.lodash])
  ∧ invocations [Sample.left_pad; Sample.lodash]
                [Sample.lodash; Sample.left_pad; Sample.lodash] = 2%nat.
Proof.
  split; [|by vm_compute].
  intros k Hk. apply elem_of_cons in Hk as [->|Hk]; [set_solver|].
  apply list_elem_of_singleton in Hk as ->. set_solver.
Qed.

Lemma aggregator_callback_once_witness :
  invocations [Sample.left_pad; Sample.lodash]
              [Sample.lodash; Sample.left_pad] = 1%nat.
Proof.
  apply (proj2 (aggregator_callback_once_after_all
                  [Sample.left_pad; Sample.lodash])).
  - discriminate.
  - apply NoDup_cons. split; [|apply NoDup_singleton].
    intros Hin. apply list_elem_of_singleton in Hin. discriminate.
  - intros k. rewrite !elem_of_cons. rewrite !elem_of_nil. tauto.
Defined.

(** C3, as stated, fails: the only key is complete and the callback has been
    called; passing the key again calls it a second time. *)
Lemma aggregate_again_second_callback :
  invocations [Sample.left_pad] [Sample.left_pad] = 1%nat
  ∧ invocations [Sample.left_pad] ([Sample.left_pad] ++ [Sample.left_pad]) = 2%nat.
Proof. split; by vm_compute. Qed.

Lemma aggregate_again_witness :
  invocations [Sample.lodash] ([Sample.lodash] ++ [Sample.lodash]) =
  S (invocations [Sample.lodash] [Sample.lodash]).
Proof.
  apply aggregate_again_calls_back_again.
  - intros k Hk. exact Hk.
  - apply list_elem_of_singleton. reflexivity.
Defined.

Lemma is_ready_monotone_witness :
  let a := (Aggregator.aggregate_all [Sample.left_pad]
              (Aggregator.new [Sample.left_pad] S, 0%nat)).1 in
  Aggregator.is_ready a = true
  ∧ Aggregator.is_ready
      (Aggregator.aggregate_all [Sample.lodash; Sample.left_pad] (a, 1%nat)).1 = true.
Proof.
  intros a. assert (Aggregator.is_ready a = true) as Hready by (vm_compute; reflexivity).
  split; [exact Hready|].
  exact (proj2 (is_ready_monotone nat a 1%nat [Sample.lodash; Sample.left_pad]) Hready).
Defined.

Lemma second_request_witness :
  let w2 := get_stack_metadata Sample.config Sample.uri
              {| manifest := Some "{}"; origin := None |}
              (get_stack_metadata Sample.config Sample.uri
                 {| manifest := Some "{}"; origin := None |} initial_world) in
  length (submissions Sample.uri w2) = 2%nat
  ∧ stack_analysis_requests w2 !! Sample.uri = None.
Proof.
  apply (second_request_before_response_is_submitted Sample.config Sample.uri
           {| manifest := Some "{}"; origin := None |}
           {| manifest := Some "{}"; origin := None |} initial_world).
  reflexivity.
Defined.

(** Once the response to the submission has been handled, a second request
    for the document is not submitted. *)
Example second_request_while_polling :
  let context := {| manifest := Some "{}"; origin := None |} in
  let w1 := get_stack_metadata Sample.config Sample.uri context initial_world in
  let w2 := state_of (get_stack_metadata_callback Sample.parse Sample.uri
                        (RequestDone 200 Sample.body_submitted) w1) in
  let w3 := get_stack_metadata Sample.config Sample.uri context w2 in
  stack_analysis_requests w2 !! Sample.uri = Some (Some (JStr "7f3a"))
  ∧ timers w2 = [poll_timer Sample.uri (Some (JStr "7f3a"))]
  ∧ w3 = w2
  ∧ length (submissions Sample.uri w3) = 1%nat.
Proof. by vm_compute. Qed.

(** C7, as stated, fails: a poll answered with status code 202 and an empty
    body schedules no further poll, as [JSON.parse] throws before the status
    code is looked at. *)
Lemma poll_202_unparsed_not_rescheduled :
  let id := Some (JStr "7f3a") in
  let w := initial_world in
  stack_collector_callback Sample.parse Sample.uri id (RequestDone 202 "") w =
  Threw "SyntaxError" w
  ∧ timers (state_of (stack_collector_callback Sample.parse Sample.uri id
                        (RequestDone 202 "") w)) = [].
Proof. split; reflexivity. Qed.

(** Nor does a 202 whose status cannot be compared: the comparison with
    ['success'] throws. *)
Example poll_202_odd_status_not_rescheduled :
  stack_collector_callback Sample.parse Sample.uri (Some (JStr "7f3a"))
    (RequestDone 202 Sample.body_odd_status) initial_world =
  Threw "TypeError" initial_world.
Proof. by vm_compute. Qed.

(** Conversions that throw, and conversions that do not. *)
Example to_string_samples :
  to_string (JObj [("toString", JNum "1")]) = None
  ∧ to_string (JArr [JStr "a"; JObj [("toString", JNum "1")]]) = None
  ∧ to_string (JObj [("id", JNum "1")]) = Some "[object Object]"
  ∧ to_string (JArr [JStr "a"; JNull; JArr [JNum "1"; JBool true]]) = Some "a,,1,true"
  ∧ loose_eq_word (Some (JArr [JStr "success"])) "success" = Some true
  ∧ loose_eq_word (Some (JObj [("toString", JNum "1")])) "success" = None
  ∧ loose_eq_word None "success" = Some false.
Proof. by vm_compute. Qed.

Lemma stack_collector_callback_witness :
  let id := Some (JStr "7f3a") in
  let w := initial_world in
  (∃ w', stack_collector_callback Sample.parse Sample.uri id
           (RequestDone 200 Sample.body_success) w = Returned w'
         ∧ stack_analysis_responses w' =
           <[Sample.uri := JObj [("status", JStr "success")]]>
             (stack_analysis_responses w)
         ∧ stack_analysis_requests w' = stack_analysis_requests w
         ∧ timers w' = timers w
         ∧ http_calls w' = http_calls w)
  ∧ (∃ w', stack_collector_callback Sample.parse Sample.uri id
             (RequestDone 202 Sample.body_in_progress) w = Returned w'
           ∧ timers w' = timers w ++ [poll_timer Sample.uri id]
           ∧ stack_analysis_responses w' = stack_analysis_responses w
           ∧ stack_analysis_requests w' = stack_analysis_requests w
           ∧ http_calls w' = http_calls w
           ∧ (∀ text, template id = Some text →
                ∃ w'', fire Sample.config (poll_timer Sample.uri id) w' = Returned w''
                       ∧ http_calls w'' =
                         http_calls w' ++
                         [Get (server_url Sample.config ++ "/stack-analyses/" ++ text)%string
                              Sample.uri id]
                       ∧ timers w'' = timers w'
                       ∧ stack_analysis_responses w'' = stack_analysis_responses w')
           ∧ (template id = None →
              fire Sample.config (poll_timer Sample.uri id) w' = Threw "TypeError" w'))
  ∧ state_of (stack_collector_callback Sample.parse Sample.uri id
                (RequestDone 500 "") w) = w.
Proof.
  intros id w. split; [|split].
  - apply (proj1 (stack_collector_callback_cases Sample.parse Sample.config
                    Sample.uri id (RequestDone 200 Sample.body_success) w)).
    exists 200%Z, Sample.body_success, (Some (JStr "success")).
    repeat split; reflexivity.
  - apply (proj1 (proj2 (stack_collector_callback_cases Sample.parse Sample.config
                           Sample.uri id (RequestDone 202 Sample.body_in_progress) w))).
    exists Sample.body_in_progress, (JObj [("error", JStr "in progress")]), None.
    repeat split; reflexivity.
  - apply (proj2 (proj2 (stack_collector_callback_cases Sample.parse Sample.config
                           Sample.uri id (RequestDone 500 "") w))).
    + intros data (statusCode & body & status & Hresult & Hparse & _).
      inversion Hresult; subst. vm_compute in Hparse. discriminate Hparse.
    + intros (body & data & status & Hresult & _). discriminate Hresult.
Defined.

(** The timer armed on the sample answer in progress makes its request. *)
Example sample_timer_fires :
  fire Sample.config (poll_timer Sample.uri (Some (JStr "7f3a"))) initial_world =
  Returned
    {| stack_analysis_requests := ∅;
       stack_analysis_responses := ∅;
       http_calls :=
         [Get "http://ose-vm1.lab.eng.blr.redhat.com:32000/api/v1/stack-analyses/7f3a"
              Sample.uri (Some (JStr "7f3a"))];
       timers := [];
       collecting := [] |}.
Proof. reflexivity. Qed.

(** A run with two dependencies: the fetch of the second fails with 404 and
    ends first, the fetch of the first succeeds. *)
Example sample_run_trace :
  trace (sample_run [Sample.left_pad; Sample.lodash]
                    [(Sample.lodash, HttpEnd 404 "");
                     (Sample.left_pad, HttpEnd 200 Sample.body_success)]).2 =
  [Aggregate Sample.lodash;
   PipelineRun Sample.left_pad (JObj [("status", JStr "success")]);
   Aggregate Sample.left_pad;
   SendDiagnostics Sample.uri []].
Proof. by vm_compute. Qed.

Lemma pipeline_runs_before_aggregate_witness :
  let t := trace (sample_run [Sample.left_pad; Sample.lodash]
                             [(Sample.lodash, HttpEnd 404 "");
                              (Sample.left_pad, HttpEnd 200 Sample.body_success)]).2 in
  (∀ i dep response,
      t !! i = Some (PipelineRun dep response) → t !! S i = Some (Aggregate dep))
  ∧ (∀ i j dep response,
        t !! i = Some (PipelineRun dep response) →
        t !! j = Some (Aggregate dep) → i < j)
  ∧ (∀ i u ds,
        t !! i = Some (SendDiagnostics u ds) →
        ds = emitted Sample.quiet Sample.quiet Sample.quiet Sample.quiet
                     Sample.config (take i t)).
Proof.
  apply (pipeline_runs_before_aggregate Sample.parse Sample.quiet Sample.quiet
           Sample.quiet Sample.quiet Sample.config Sample.uri
           [Sample.left_pad; Sample.lodash]
           [(Sample.lodash, HttpEnd 404 "");
            (Sample.left_pad, HttpEnd 200 Sample.body_success)]).
  simpl. apply NoDup_cons. split; [|apply NoDup_singleton].
  intros Hin. apply list_elem_of_singleton in Hin. discriminate.
Defined.

(** C5, as stated, fails: the fetch of the only dependency ends with status
    404; the dependency is passed to [aggregate] and the empty list is
    published, but the pipeline is not run for it. *)
Lemma failed_fetch_pipeline_not_run :
  let t := trace (sample_run [Sample.left_pad]
                             [(Sample.left_pad, HttpEnd 404 "")]).2 in
  t = [Aggregate Sample.left_pad; SendDiagnostics Sample.uri []]
  ∧ ∀ response, PipelineRun Sample.left_pad response ∉ t.
Proof.
  intros t. assert (t = [Aggregate Sample.left_pad; SendDiagnostics Sample.uri []])
    as -> by (by vm_compute).
  split; [done|]. intros response Hin.
  apply elem_of_cons in Hin as [Hin|Hin]; [discriminate|].
  apply list_elem_of_singleton in Hin. discriminate.
Qed.

Lemma failed_status_witness :
  let st := {| diagnostics := []; trace := [] |} in
  let s' := fetch_done Sample.parse Sample.quiet Sample.quiet Sample.quiet
              Sample.quiet Sample.config
              ({| Aggregator.mapping := {[Sample.left_pad := false]};
                  Aggregator.callback := publish Sample.uri |}, st)
              (Sample.left_pad, HttpEnd 404 "") in
  Aggregator.mapping s'.1 !! Sample.left_pad = Some true
  ∧ diagnostics s'.2 = diagnostics st
  ∧ (trace s'.2 = trace st ++ [Aggregate Sample.left_pad]
     ∨ trace s'.2 =
       trace st ++ [Aggregate Sample.left_pad;
                    SendDiagnostics Sample.uri (diagnostics st)]).
Proof.
  apply (failed_status_skips_pipeline_and_completes Sample.parse Sample.quiet
           Sample.quiet Sample.quiet Sample.quiet Sample.config Sample.uri
           {[Sample.left_pad := false]} {| diagnostics := []; trace := [] |}
           Sample.left_pad 404 ""); lia.
Defined.

(** ** The further statements on the sample data *)

Local Abbreviation sample_files := (files Sample.regexp_new Sample.config).

Local Abbreviation sample_deliver_all :=
  (deliver_all Sample.parse Sample.regexp_test Sample.pathname Sample.basename
               Sample.config).

Local Abbreviation sample_handle_file_event :=
  (handle_file_event Sample.regexp_test Sample.pathname Sample.basename).

(** A run in which the license engine reports every dependency. *)
Local Abbreviation loud_run :=
  (manifest_run Sample.parse Sample.loud Sample.quiet Sample.quiet Sample.quiet
                Sample.config Sample.uri).

Example sample_file_names :
  Sample.basename (Sample.pathname Sample.uri) = "package.json"
  ∧ Sample.basename (Sample.pathname Sample.other_uri) = "README.md".
Proof. split; reflexivity. Qed.

Lemma aggregator_mapping_by_key_sets_witness :
  Aggregator.mapping
    (Aggregator.aggregate_all [Sample.left_pad; Sample.left_pad]
       (Aggregator.new [Sample.left_pad; Sample.lodash; Sample.left_pad] S, 0%nat)).1 =
  Aggregator.mapping
    (Aggregator.aggregate_all [Sample.left_pad]
       (Aggregator.new [Sample.lodash; Sample.left_pad] (λ n, n), 5%nat)).1.
Proof.
  apply aggregator_mapping_by_key_sets.
  - intros k. rewrite !elem_of_cons, !elem_of_nil. tauto.
  - intros k. rewrite !elem_of_cons, !elem_of_nil. tauto.
Defined.

Lemma run_other_stream_witness :
  AnalysisFiles.run Sample.regexp_test
    (AnalysisFiles.registered Sample.regexp_new
       [ {| AnalysisFiles.reg_stream := Diagnostics;
            AnalysisFiles.reg_matcher := "^package\.json$";
            AnalysisFiles.reg_callback := λ _ _ _ (n : nat), (tt, S n) |} ])
    CodeLens Sample.uri "package.json" (Some "{}") 0%nat = (None, 0%nat).
Proof.
  apply run_other_stream. apply Forall_singleton. simpl. discriminate.
Defined.

Lemma file_event_on_other_file_witness :
  let s := (sample_files, initial_world) in
  (sample_handle_file_event Sample.other_uri (Some "# readme") s).2 = s.2
  ∧ ∀ uri', AnalysisFiles.file_data
              (sample_handle_file_event Sample.other_uri (Some "# readme") s).1
              !! uri' =
            if decide (uri' = Sample.other_uri) then Some "# readme"
            else AnalysisFiles.file_data s.1 !! uri'.
Proof.
  intros s.
  apply (file_event_on_other_file Sample.regexp_new Sample.regexp_test
           Sample.pathname Sample.basename Sample.config Sample.other_uri
           (Some "# readme") s).
  - reflexivity.
  - vm_compute. reflexivity.
Defined.

Lemma file_event_on_manifest_witness :
  let s := (sample_files, initial_world) in
  let w' := (sample_handle_file_event Sample.uri (Some "{}") s).2 in
  collecting w' = collecting s.2 ++ [(Sample.uri, Some "{}")]
  ∧ http_calls w' =
    http_calls s.2 ++
    (if decide (is_Some (stack_analysis_requests s.2 !! Sample.uri)) then []
     else [Post (server_url Sample.config ++ "/stack-analyses/")%string
                {| form_manifest := Some "{}";
                   form_filename := "package.json";
                   form_contentType := "application/json";
                   form_origin := "lsp" |} Sample.uri])
  ∧ stack_analysis_requests w' = stack_analysis_requests s.2
  ∧ stack_analysis_responses w' = stack_analysis_responses s.2
  ∧ timers w' = timers s.2.
Proof.
  intros s.
  apply (file_event_on_manifest Sample.regexp_new Sample.regexp_test
           Sample.pathname Sample.basename Sample.config Sample.uri "{}" s).
  - reflexivity.
  - vm_compute. reflexivity.
Defined.

(** Opening the sample manifest twice in a row posts it twice; see C4. *)
Example open_twice_posts_twice :
  length (submissions Sample.uri
            (sample_deliver_all (sample_files, initial_world)
               [DidOpen Sample.uri "{}"; DidSave Sample.uri]).2) = 2%nat.
Proof. by vm_compute. Qed.

Lemma recorded_document_witness :
  let s := (sample_files,
            {| stack_analysis_requests := {[Sample.uri := Some (JStr "7f3a")]};
               stack_analysis_responses := ∅;
               http_calls := [];
               timers := [];
               collecting := [] |}) in
  let events := [DidOpen Sample.uri "{}"; DidSave Sample.uri;
                 GetAnswered Sample.uri (Some (JStr "7f3a")) (RequestDone 500 "");
                 DidSave Sample.uri] in
  submissions Sample.uri (sample_deliver_all s events).2 = submissions Sample.uri s.2
  ∧ is_Some (stack_analysis_requests (sample_deliver_all s events).2 !! Sample.uri).
Proof.
  intros s events.
  apply (recorded_document_never_resubmitted Sample.parse Sample.regexp_new
           Sample.regexp_test Sample.pathname Sample.basename Sample.config
           s events Sample.uri).
  - reflexivity.
  - exists (Some (JStr "7f3a")). vm_compute. reflexivity.
Defined.

Lemma stored_results_witness :
  reports_success (JObj [("status", JStr "success")]).
Proof.
  apply (stored_results_report_success Sample.parse Sample.regexp_new
           Sample.regexp_test Sample.pathname Sample.basename Sample.config
           [DidOpen Sample.uri "{}";
            GetAnswered Sample.uri (Some (JStr "7f3a"))
                        (RequestDone 200 Sample.body_success)]
           Sample.uri).
  vm_compute. reflexivity.
Defined.

Lemma poll_loop_witness :
  let s := (sample_files, initial_world) in
  let id := Some (JStr "7f3a") in
  let s' := sample_deliver_all s
              (poll_rounds Sample.uri id
                 ([RequestDone 202 Sample.body_in_progress;
                   RequestDone 202 Sample.body_in_progress]
                  ++ [RequestDone 200 Sample.body_success])) in
  let call := Get (server_url Sample.config ++ "/stack-analyses/" ++ "7f3a")%string
                  Sample.uri id in
  http_calls s'.2 = http_calls s.2 ++ replicate 3 call
  ∧ timers s'.2 = timers s.2 ++ replicate 2 (poll_timer Sample.uri id)
  ∧ stack_analysis_responses s'.2 =
    <[Sample.uri := JObj [("status", JStr "success")]]> (stack_analysis_responses s.2)
  ∧ stack_analysis_requests s'.2 = stack_analysis_requests s.2.
Proof.
  intros s id.
  assert (poll_in_progress Sample.parse (RequestDone 202 Sample.body_in_progress))
    as Hprogress.
  { exists Sample.body_in_progress, (JObj [("error", JStr "in progress")]), None.
    repeat split; reflexivity. }
  apply (poll_loop_until_success Sample.parse Sample.regexp_test Sample.pathname
           Sample.basename Sample.config s Sample.uri id "7f3a"
           [RequestDone 202 Sample.body_in_progress;
            RequestDone 202 Sample.body_in_progress]
           (RequestDone 200 Sample.body_success)
           (JObj [("status", JStr "success")])).
  - reflexivity.
  - apply Forall_cons. split; [exact Hprogress|].
    apply Forall_singleton. exact Hprogress.
  - exists 200%Z, Sample.body_success, (Some (JStr "success")).
    repeat split; reflexivity.
Defined.

Lemma unsuccessful_submission_witness :
  state_of (get_stack_metadata_callback Sample.parse Sample.uri
              (RequestDone 200 Sample.body_in_progress) initial_world) =
  initial_world.
Proof.
  apply unsuccessful_submission_leaves_no_trace.
  intros statusCode body resp status Hresult Hparse Herror.
  inversion Hresult; subst. vm_compute in Hparse.
  inversion Hparse; subst. vm_compute in Herror. discriminate Herror.
Defined.

(** The sample run with an engine that reports: the 404 of the first arrival
    gives nothing, the answer of the second one entry, published once. *)
Example loud_run_trace :
  trace (loud_run [Sample.left_pad; Sample.lodash]
                  [(Sample.lodash, HttpEnd 404 "");
                   (Sample.left_pad, HttpEnd 200 Sample.body_success)]).2 =
  [Aggregate Sample.lodash;
   PipelineRun Sample.left_pad (JObj [("status", JStr "success")]);
   Aggregate Sample.left_pad;
   SendDiagnostics Sample.uri
     [ {| range := ((0, 0), (0, 0))%Z; severity := 3;
          message := "left-pad"; source := "sample" |} ]].
Proof. by vm_compute. Qed.

Lemma pipeline_runs_on_answers_witness :
  is_null (JObj [("status", JStr "success")]) = false
  ∧ ∃ statusCode body,
      (Sample.left_pad, HttpEnd statusCode body) ∈
        [(Sample.lodash, HttpEnd 404 "");
         (Sample.left_pad, HttpEnd 200 Sample.body_success)]
      ∧ (statusCode = 200 ∨ statusCode = 202)%Z
      ∧ Sample.parse body = Some (JObj [("status", JStr "success")]).
Proof.
  apply (pipeline_runs_on_answers_only Sample.parse Sample.loud Sample.quiet
           Sample.quiet Sample.quiet Sample.config Sample.uri
           [Sample.left_pad; Sample.lodash]
           [(Sample.lodash, HttpEnd 404 "");
            (Sample.left_pad, HttpEnd 200 Sample.body_success)]
           1%nat Sample.left_pad).
  vm_compute. reflexivity.
Defined.

Lemma run_publishes_once_witness :
  let arrivals := [(Sample.lodash, HttpEnd 404 "");
                   (Sample.left_pad, HttpEnd 200 Sample.body_success)] in
  ∃ before,
    trace (loud_run [Sample.left_pad; Sample.lodash] arrivals).2 =
    before ++
    [SendDiagnostics Sample.uri
       (findings Sample.parse Sample.loud Sample.quiet Sample.quiet Sample.quiet
                 Sample.config arrivals)]
    ∧ ∀ u ds, SendDiagnostics u ds ∉ before.
Proof.
  intros arrivals.
  apply (run_publishes_once_at_the_end Sample.parse Sample.loud Sample.quiet
           Sample.quiet Sample.quiet Sample.config Sample.uri
           [Sample.left_pad; Sample.lodash] arrivals).
  - discriminate.
  - simpl. apply NoDup_cons. split; [|apply NoDup_singleton].
    intros Hin. apply list_elem_of_singleton in Hin. discriminate.
  - intros k. simpl. rewrite !elem_of_cons, !elem_of_nil. tauto.
  - apply Forall_cons. split; [by eexists|].
    apply Forall_singleton. by eexists.
Defined.

Lemma run_stalls_witness :
  let arrivals := [(Sample.left_pad, HttpEnd 200 Sample.body_success);
                   (Sample.lodash, HttpFailed)] in
  Aggregator.is_ready (sample_run [Sample.left_pad; Sample.lodash] arrivals).1 = false
  ∧ ∀ u ds, SendDiagnostics u ds ∉
              trace (sample_run [Sample.left_pad; Sample.lodash] arrivals).2.
Proof.
  intros arrivals.
  apply (run_stalls_on_unanswered_dependency Sample.parse Sample.quiet Sample.quiet
           Sample.quiet Sample.quiet Sample.config Sample.uri
           [Sample.left_pad; Sample.lodash] arrivals Sample.lodash).
  - apply elem_of_cons. right. apply list_elem_of_singleton. reflexivity.
  - intros Hin. vm_compute in Hin.
    apply list_elem_of_singleton in Hin. discriminate.
Defined.

(** X19.  The crypto engine is consulted only when [no_crypto] is set: with
    [no_crypto] false it is not among the engines, and a run is the same
    whatever the crypto engine would report. *)
Theorem crypto_engine_only_with_no_crypto (JSON_parse : string → option Json)
    (License Security EmptyResult Crypto1 Crypto2 : Engine)
    (cfg : AnalysisConfig) (uri : string) (deps : list IDependency)
    (arrivals : list (IDependency * HttpGetResult)) :
  no_crypto cfg = false →
  manifest_run JSON_parse License Security EmptyResult Crypto1 cfg uri deps arrivals =
  manifest_run JSON_parse License Security EmptyResult Crypto2 cfg uri deps arrivals.
Proof.
  intros Hoff. induction arrivals as [|a arrivals IH] using rev_ind; [done|].
  unfold manifest_run in *. rewrite !foldl_app, IH. simpl.
  unfold fetch_done. destruct (get_metadata JSON_parse a.2) as [response|]; [|done].
  unfold on_metadata, DiagnosticsEngines. by rewrite Hoff.
Qed.

Lemma crypto_engine_witness :
  sample_run [Sample.left_pad] [(Sample.left_pad, HttpEnd 200 Sample.body_success)] =
  manifest_run Sample.parse Sample.quiet Sample.quiet Sample.quiet Sample.loud
               Sample.config Sample.uri
               [Sample.left_pad] [(Sample.left_pad, HttpEnd 200 Sample.body_success)].
Proof.
  apply crypto_engine_only_with_no_crypto. reflexivity.
Defined.
